(** * bn-goloader: the Go function-table renamer of [gohelpers.py]

    A shallow embedding of [gohelpers.py] (a Binary Ninja plugin written for
    Python 2) and the properties of its two passes:
    [FunctionRenamer.rename_functions], which walks the [.gopclntab] table,
    and [NewProcRenamer.rename], which looks at the callers of
    [go.runtime.newproc].

    Python integers are unbounded, hence [Z]; a Python 2 [str] is a sequence
    of 8-bit characters, hence [string].  The host (Binary Ninja's
    [BinaryView]) is split in a read-only part, the record [BinaryView], and
    the part the plugin mutates, the record [Database]. *)

From Stdlib Require Import ZArith List String Ascii Bool Lia.
From stdpp Require Import base option gmap strings.

Local Open Scope string_scope.
Local Open Scope Z_scope.

(** ** Python primitives *)

Module Py.

(** [range(start, stop, step)]: the list Python 2 builds.  A zero step
    raises [ValueError], which is [None] here. *)
Definition range_len (start stop step : Z) : Z :=
  if 0 <? step then
    if start <? stop then (stop - start - 1) / step + 1 else 0
  else
    if stop <? start then (start - stop - 1) / (- step) + 1 else 0.

Fixpoint range_from (start step : Z) (n : nat) : list Z :=
  match n with
  | O => []
  | S k => start :: range_from (start + step) step k
  end.

Definition range (start stop step : Z) : option (list Z) :=
  if step =? 0 then None
  else Some (range_from start step (Z.to_nat (range_len start stop step))).

(** [s.replace(c, "")] for a one-character [c]: every occurrence goes. *)
Fixpoint str_remove (c : ascii) (s : string) : string :=
  match s with
  | EmptyString => EmptyString
  | String a t =>
      if Ascii.eqb a c then str_remove c t else String a (str_remove c t)
  end.

Definition in_range (lo hi c : ascii) : bool :=
  (N_of_ascii lo <=? N_of_ascii c)%N && (N_of_ascii c <=? N_of_ascii hi)%N.

End Py.

(** ** The name sanitizers (lines 15-33) *)

Definition GOFUNC_PREFIX : string := "go.".

Definition underscore : ascii := "_"%char.

(** The class [[a-zA-Z0-9\.]], whose complement [_RE_REPLACE_UNDERSCORE]
    matches. *)
Definition name_char (c : ascii) : bool :=
  Py.in_range "a"%char "z"%char c || Py.in_range "A"%char "Z"%char c
  || Py.in_range "0"%char "9"%char c || Ascii.eqb c "."%char.

(** [_RE_REPLACE_UNDERSCORE.sub("_", s)]: the pattern matches one character
    at a time, so every character outside the class is replaced on its own. *)
Fixpoint RE_REPLACE_UNDERSCORE_sub (s : string) : string :=
  match s with
  | EmptyString => EmptyString
  | String c t =>
      if name_char c then String c (RE_REPLACE_UNDERSCORE_sub t)
      else String underscore (RE_REPLACE_UNDERSCORE_sub t)
  end.

(** How many underscores [s] starts with. *)
Fixpoint underscore_run (s : string) : nat :=
  match s with
  | EmptyString => O
  | String c t => if Ascii.eqb c underscore then S (underscore_run t) else O
  end.

(** The greedy match of [__+] at the head of [s]: its length, if it matches. *)
Definition RE_COMPRESS_UNDERSCORE_match (s : string) : option nat :=
  let n := underscore_run s in
  if (2 <=? n)%nat then Some n else None.

(** [_RE_COMPRESS_UNDERSCORE.sub("_", s)]: scan from the left; where the
    pattern matches, emit the replacement and resume behind the match
    ([skip] counts the characters of the match still to be passed over);
    where it does not, copy the character. *)
Fixpoint RE_COMPRESS_UNDERSCORE_from (skip : nat) (s : string) : string :=
  match s with
  | EmptyString => EmptyString
  | String c t =>
      match skip with
      | S k => RE_COMPRESS_UNDERSCORE_from k t
      | O =>
          match RE_COMPRESS_UNDERSCORE_match s with
          | Some n => String underscore (RE_COMPRESS_UNDERSCORE_from (n - 1) t)
          | None => String c (RE_COMPRESS_UNDERSCORE_from 0 t)
          end
      end
  end.

Definition RE_COMPRESS_UNDERSCORE_sub (s : string) : string :=
  RE_COMPRESS_UNDERSCORE_from 0 s.

Definition santize_gofunc_name (name : string) : string :=
  Py.str_remove " "%char name.

Definition sanitize_var_name (name : string) : string :=
  let varname := RE_REPLACE_UNDERSCORE_sub name in
  let varname := RE_COMPRESS_UNDERSCORE_sub varname in
  varname.

(** *** Run collapsing, as the specification words it

    "Replaces every maximal run of characters other than letters, digits
    and [.] with a single [_]": [collapsed s r] holds when [r] is [s] with
    every such run replaced.  A run is maximal when what follows it is the
    end of the string or a character of the class. *)

Fixpoint all_other (s : string) : Prop :=
  match s with
  | EmptyString => True
  | String c t => name_char c = false /\ all_other t
  end.

Definition run_ends (rest : string) : Prop :=
  match rest with
  | EmptyString => True
  | String c _ => name_char c = true
  end.

Inductive collapsed : string -> string -> Prop :=
| collapsed_nil : collapsed "" ""
| collapsed_keep c t r :
    name_char c = true -> collapsed t r -> collapsed (String c t) (String c r)
| collapsed_run run rest r :
    run <> "" -> all_other run -> run_ends rest -> collapsed rest r ->
    collapsed (run ++ rest) (String underscore r).

(** The same as a function: [in_run] tells whether the characters just
    passed belong to a run that has already produced its underscore. *)
Fixpoint collapse_runs (in_run : bool) (s : string) : string :=
  match s with
  | EmptyString => EmptyString
  | String c t =>
      if name_char c then String c (collapse_runs false t)
      else if in_run then collapse_runs true t
      else String underscore (collapse_runs true t)
  end.

(** How many characters outside the class [s] starts with. *)
Fixpoint other_run (s : string) : nat :=
  match s with
  | EmptyString => O
  | String c t => if name_char c then O else S (other_run t)
  end.

(** ** The host: Binary Ninja's view of the binary *)

#[global] Instance byte_eq_dec : EqDecision Byte.byte := Byte.byte_eq_dec.

(** [bn.LowLevelILOperation], as far as the plugin tells operations apart. *)
Inductive LowLevelILOperation := LLIL_CALL | LLIL_PUSH | LLIL_OTHER.

#[global] Instance LowLevelILOperation_eq_dec : EqDecision LowLevelILOperation.
Proof. solve_decision. Defined.

(** A decoded instruction: its operation, and [inst.src.value.value] where
    the instruction has a source operand ([None]: the attribute is missing). *)
Record LowLevelILInstruction := {
  operation : LowLevelILOperation;
  src_value : option Z
}.

(** A basic block: its length (the truth value Python gives the object) and
    the start of the function that owns it. *)
Record BasicBlock := {
  bb_length : Z;
  bb_function : Z
}.

Record BvSection := { sec_start : Z }.

Inductive SymbolType := FunctionSymbol | DataSymbol.

(** [bn.types.Symbol(sym_type, addr, short_name, full_name)]; the raw name
    defaults to the full name. *)
Record Symbol := {
  sym_type : SymbolType;
  sym_address : Z;
  short_name : string;
  full_name : string;
  raw_name : string
}.

Definition mkSymbol (ty : SymbolType) (addr : Z) (short full : string) : Symbol :=
  {| sym_type := ty; sym_address := addr; short_name := short;
     full_name := full; raw_name := full |}.

(** The result of [parse_type_string("void*")[0]]. *)
Inductive DataType := VoidPointer.

(** What the plugin only reads.  [mem] is the loaded image ([None]: the
    address is not mapped) and [bv_end] the end of the view.
    [get_ascii_string_at a] is the [value] of the string reference the host
    returns for [a], [None] when it returns none; [get_code_refs a] lists
    the addresses of the references to [a].  A function is known by its
    start address and [low_level_il fn addr] is
    [fn.get_low_level_il_at(addr)], [None] standing for the [IndexError] the
    plugin expects where no instruction is found.  [auto_name a] is the name
    the host gives a function at [a] that has no symbol. *)
Record BinaryView := {
  address_size : Z;
  sections : gmap string BvSection;
  mem : Z -> option Byte.byte;
  bv_end : Z;
  get_ascii_string_at : Z -> option string;
  get_code_refs : Z -> list Z;
  get_basic_blocks_at : Z -> list BasicBlock;
  low_level_il : Z -> Z -> option LowLevelILInstruction;
  auto_name : Z -> string
}.

(** What the plugin mutates: the functions (by start address), the symbols
    and the data variables of the analysis database. *)
Record Database := {
  functions : gset Z;
  symbols : gmap Z Symbol;
  data_vars : gmap Z DataType
}.

(** The records the plugin sends to the log; the constructor tells the
    level ([log_info], [log_debug], [log_warn], [log_alert]) and the fields
    are the arguments of [format]. *)
Inductive LogRecord :=
| Info_renaming_functions
| Alert_section_not_found
| Info_found_gopclntab (base_addr entries : Z)
| Debug_analyzing (addr : Z)
| Debug_func_addr (func_addr entry_offset : Z)
| Debug_found_name (name : string) (func_addr : Z)
| Warn_not_using_name (name : string) (func_addr addr name_addr : Z)
| Info_renamed_functions (renamed : Z)
| Info_found_xref (addr : Z)
| Debug_not_a_call (callinst : LowLevelILInstruction)
| Debug_instruction (j : Z) (inst : LowLevelILInstruction)
| Info_found_call (callinst : LowLevelILInstruction) (fptr : Z)
| Info_renamed_fptrs (renamed : Z).

Record State := {
  db : Database;
  log : list LogRecord
}.

Inductive exn :=
| ValueError_invalid_size (len : nat)
| ValueError_unsupported_ptr_size (size : Z)
| ValueError_range_step
| TypeError
| AttributeError
| IndexError
| UnboundLocalError.

(** ** Exceptions over the state

    A computation changes the state and either returns or raises; what it
    did to the state before raising stays done. *)

Definition M (A : Type) : Type := State -> State * (exn + A).

#[global] Instance M_ret : MRet M := fun A (a : A) st => (st, inr a).

#[global] Instance M_bind : MBind M := fun A B (f : A -> M B) (m : M A) st =>
  match m st with
  | (st', inr a) => f a st'
  | (st', inl e) => (st', inl e)
  end.

Definition raise {A} (e : exn) : M A := fun st => (st, inl e).

Definition get_db : M Database := fun st => (st, inr (db st)).

Definition modify_db (f : Database -> Database) : M unit :=
  fun st => ({| db := f (db st); log := log st |}, inr tt).

Definition emit (r : LogRecord) : M unit :=
  fun st => ({| db := db st; log := log st ++ [r] |}, inr tt).

(** A [for] loop over [l] whose body updates the locals [acc]; [continue]
    is the body returning. *)
Fixpoint for_each {A B} (l : list A) (acc : B) (body : A -> B -> M B) : M B :=
  match l with
  | [] => mret acc
  | x :: t => acc' ← body x acc; for_each t acc' body
  end.

(** A value that is an integer or [None], at the point where the code first
    uses it as a number.  [None] raises there: [TypeError] in arithmetic;
    under the format code [x] Python 2 raises [ValueError] and Python 3
    [TypeError], and the one constructor stands for both. *)
Definition py_int (v : option Z) : M Z :=
  match v with
  | Some z => mret z
  | None => raise TypeError
  end.

(** ** Host primitives *)

(** [struct.unpack("Q", x)[0]] and [struct.unpack("I", x)[0]] on a
    little-endian host, and the reader's [read64] and [read32] on a
    little-endian view: the unsigned value of the bytes, lowest first. *)
Fixpoint le_decode (bs : list Byte.byte) : Z :=
  match bs with
  | [] => 0
  | b :: t => Z.of_N (Byte.to_N b) + 256 * le_decode t
  end.

Fixpoint read_from (m : Z -> option Byte.byte) (addr : Z) (n : nat) : list Byte.byte :=
  match n with
  | O => []
  | S k =>
      match m addr with
      | Some b => b :: read_from m (addr + 1) k
      | None => []
      end
  end.

(** The image made of the given segments (start address, bytes); the first
    segment that covers an address decides. *)
Fixpoint mem_of_segments (segs : list (Z * list Byte.byte)) (a : Z) : option Byte.byte :=
  match segs with
  | [] => None
  | (start, bytes) :: rest =>
      if (start <=? a) && (a <? start + Z.of_nat (length bytes))
      then nth_error bytes (Z.to_nat (a - start))
      else mem_of_segments rest a
  end.

Section Host.

Context (bv : BinaryView).

(** The host's [bv.read(addr, length)], which returns at most [length]
    bytes: those that are mapped from [addr] on, up to the first that is
    not. *)
Definition bv_read (addr length : Z) : list Byte.byte :=
  read_from (mem bv) addr (Z.to_nat length).

(** The host's [br.seek(addr)] followed by [br.read64()] or
    [br.read32()]: the value, or [None] when the bytes cannot all be read,
    a failure that differs from reading zero.  Every read of the plugin
    seeks first, so the reader's offset is not kept. *)
Definition br_read (addr : Z) (width : nat) : option Z :=
  let x := read_from (mem bv) addr width in
  if decide (length x = width) then Some (le_decode x) else None.

(** The host's [bv.find_next_data(start, data)], a linear search of the
    view: the lowest address from [start] on where the bytes of [data]
    are found, if there is one before [bv_end]. *)
Definition data_at (data : list Byte.byte) (a : Z) : bool :=
  bool_decide (bv_read a (Z.of_nat (length data)) = data).

Definition find_next_data (start : Z) (data : list Byte.byte) : option Z :=
  find (data_at data)
       (Py.range_from start 1 (Z.to_nat (bv_end bv - start))).

(** The name the host shows for the function at [a]: its symbol's, or the
    automatic one. *)
Definition function_name (d : Database) (a : Z) : string :=
  match symbols d !! a with
  | Some sym => full_name sym
  | None => auto_name bv a
  end.

End Host.

Definition get_function_at (d : Database) (a : Z) : option Z :=
  if decide (a ∈ functions d) then Some a else None.

Definition create_user_function (a : Z) (d : Database) : Database :=
  {| functions := {[a]} ∪ functions d; symbols := symbols d;
     data_vars := data_vars d |}.

Definition define_user_symbol (sym : Symbol) (d : Database) : Database :=
  {| functions := functions d;
     symbols := <[sym_address sym := sym]> (symbols d);
     data_vars := data_vars d |}.

Definition define_user_data_var (a : Z) (t : DataType) (d : Database) : Database :=
  {| functions := functions d; symbols := symbols d;
     data_vars := <[a := t]> (data_vars d) |}.

Definition get_symbol_at (d : Database) (a : Z) : option Symbol :=
  symbols d !! a.

Definition get_symbol_by_raw_name (d : Database) (name : string) : option Symbol :=
  snd <$> find (fun p => bool_decide (raw_name (snd p) = name))
               (map_to_list (symbols d)).

(** ** [GoHelper] (lines 36-78) *)

Section GoHelper.

Context (bv : BinaryView).

Definition ptr_size : Z := address_size bv.

Definition get_section_by_name (section_name : string) : option BvSection :=
  sections bv !! section_name.

Definition get_pointer_at_virt (addr : Z) : M Z :=
  let x := bv_read bv addr ptr_size in
  if decide (length x = 8%nat) then mret (le_decode x)
  else if decide (length x = 4%nat) then mret (le_decode x)
  else raise (ValueError_invalid_size (length x)).

(** The result is the reader's: an integer, or [None] where the read
    failed. *)
Definition get_pointer_at (at_addr : Z) (size : option Z) : M (option Z) :=
  let size := match size with None => ptr_size | Some s => s end in
  if decide (size = 8) then mret (br_read bv at_addr 8)
  else if decide (size = 4) then mret (br_read bv at_addr 4)
  else raise (ValueError_unsupported_ptr_size size).

Definition get_function_around (addr : Z) : option Z :=
  match get_basic_blocks_at bv addr with
  | [] => None
  | bb :: _ => if decide (bb_length bb = 0) then None else Some (bb_function bb)
  end.

End GoHelper.

(** ** [FunctionRenamer] (lines 81-144) *)

Section FunctionRenamer.

Context (bv : BinaryView).

(** The Python 2 string ["\xfb\xff\xff\xff\x00\x00"]. *)
Definition pattern : list Byte.byte :=
  [Byte.xfb; Byte.xff; Byte.xff; Byte.xff; Byte.x00; Byte.x00].

(** Lines 86-96, the search for the table: [None] when the alert has been
    logged and the method returns. *)
Definition locate : M (option Z) :=
  match get_section_by_name bv ".gopclntab" with
  | None =>
      match find_next_data bv 0 pattern with
      | None => emit Alert_section_not_found;; mret None
      | Some base_addr => mret (Some base_addr)
      end
  | Some gopclntab => mret (Some (sec_start gopclntab))
  end.

(** Lines 104-107: the addresses the loop runs over. *)
Definition entry_range (base_addr size : Z) : option (list Z) :=
  let size_addr := base_addr + 8 in
  let start_addr := size_addr + ptr_size bv in
  let end_addr := base_addr + (size * ptr_size bv * 2) in
  Py.range start_addr end_addr (2 * ptr_size bv).

(** Lines 108-139, the body of the loop, with the local [renamed];
    returning before the end is [continue].  [not name] holds of [None]
    and of a string reference of length 0. *)
Definition rename_entry (base_addr addr renamed : Z) : M Z :=
  emit (Debug_analyzing addr);;
  func_addr ← get_pointer_at bv addr None;
  entry_offset ← get_pointer_at bv (addr + ptr_size bv) None;
  func_addr ← py_int func_addr;
  entry_offset ← py_int entry_offset;
  emit (Debug_func_addr func_addr entry_offset);;
  name_str_offset ←
    get_pointer_at bv (base_addr + entry_offset + ptr_size bv) (Some 4);
  name_str_offset ← py_int name_str_offset;
  let name_addr := base_addr + name_str_offset in
  match get_ascii_string_at bv name_addr with
  | None => mret renamed
  | Some "" => mret renamed
  | Some name =>
      emit (Debug_found_name name func_addr);;
      d ← get_db;
      match get_function_at d func_addr with
      | None => modify_db (create_user_function func_addr)
      | Some _ => mret tt
      end;;
      if decide (2 < String.length name)%nat then
        let name := GOFUNC_PREFIX ++ santize_gofunc_name name in
        modify_db (define_user_symbol
                     (mkSymbol FunctionSymbol func_addr name name));;
        mret (renamed + 1)
      else
        emit (Warn_not_using_name name func_addr addr name_addr);;
        mret renamed
  end.

Definition rename_functions : M unit :=
  let renamed := 0 in
  emit Info_renaming_functions;;
  gopclntab ← locate;
  match gopclntab with
  | None => mret tt
  | Some base_addr =>
      let size_addr := base_addr + 8 in
      size ← get_pointer_at bv size_addr None;
      size ← py_int size;
      emit (Info_found_gopclntab base_addr (size / (ptr_size bv * 2)));;
      match entry_range base_addr size with
      | None => raise ValueError_range_step
      | Some addrs =>
          renamed ← for_each addrs renamed (rename_entry base_addr);
          emit (Info_renamed_functions renamed)
      end
  end.

End FunctionRenamer.

(** ** [NewProcRenamer] (lines 153-214) *)

Section NewProcRenamer.

Context (bv : BinaryView).

(** Lines 171-178, the attempts of one round of the [while] loop, over
    the locals [j] and [inst]; [attempts] is what is left of
    [range(1, 7)]. *)
Fixpoint look_back (fn addr : Z) (attempts : nat) (j : Z)
    (inst : option LowLevelILInstruction)
    : M (Z * option LowLevelILInstruction) :=
  match attempts with
  | O => mret (j, inst)
  | S k =>
      let j := j + 1 in
      match low_level_il bv fn (addr - j) with
      | Some i => emit (Debug_instruction j i);; mret (j, Some i)
      | None => look_back fn addr k j inst
      end
  end.

(** Lines 170-179.  Every round appends one instruction, so the loop runs
    [2 - len(params)] rounds, which is [need]; a round that finds [inst]
    unbound raises. *)
Fixpoint collect_params (fn addr : Z) (need : nat) (j : Z)
    (inst : option LowLevelILInstruction)
    (params : list LowLevelILInstruction)
    : M (list LowLevelILInstruction * option LowLevelILInstruction) :=
  match need with
  | O => mret (params, inst)
  | S k =>
      '(j, inst) ← look_back fn addr 6 j inst;
      match inst with
      | None => raise UnboundLocalError
      | Some i => collect_params fn addr k j inst (params ++ [i])
      end
  end.

(** Lines 183-186: the value of [skip] behind the loop over [params]. *)
Definition skip_after (params : list LowLevelILInstruction) : bool :=
  fold_left
    (fun skip inst =>
       if decide (operation inst ≠ LLIL_PUSH) then true else skip)
    params true.

(** Lines 159-208, the body of the loop over the references, with the
    locals [renamed] and [inst]. *)
Definition rename_site (addr : Z)
    (locals : Z * option LowLevelILInstruction)
    : M (Z * option LowLevelILInstruction) :=
  let '(renamed, inst) := locals in
  emit (Info_found_xref addr);;
  match get_function_around bv addr with
  | None => raise AttributeError
  | Some fn =>
      match low_level_il bv fn addr with
      | None => raise IndexError
      | Some callinst =>
          if decide (operation callinst ≠ LLIL_CALL) then
            emit (Debug_not_a_call callinst);; mret (renamed, inst)
          else
            '(params, inst) ← collect_params fn addr 2 1 inst [];
            let skip := skip_after params in
            let inst := match last params with Some i => Some i | None => inst end in
            if skip then mret (renamed, inst)
            else
              match params !! 1%nat with
              | None => raise IndexError
              | Some inst1 =>
                  fptr ← match src_value inst1 with
                         | None => raise AttributeError
                         | Some v => mret v
                         end;
                  emit (Info_found_call callinst fptr);;
                  d ← get_db;
                  if decide (fptr ≠ 0 ∧ get_symbol_at d fptr = None) then
                    a ← get_pointer_at_virt bv fptr;
                    match get_function_at d a with
                    | Some tfn =>
                        let varname :=
                          "fptr_" ++ sanitize_var_name (function_name bv d tfn) in
                        modify_db (define_user_data_var a VoidPointer);;
                        modify_db (define_user_symbol
                                     (mkSymbol DataSymbol a varname varname));;
                        mret (renamed + 1, Some inst1)
                    | None => mret (renamed, Some inst1)
                    end
                  else mret (renamed, Some inst1)
              end
      end
  end.

Definition rename : M unit :=
  let renamed := 0 in
  d ← get_db;
  match get_symbol_by_raw_name d "go.runtime.newproc" with
  | None => raise AttributeError
  | Some newprocfn =>
      let xrefs := get_code_refs bv (sym_address newprocfn) in
      '(renamed, _) ← for_each xrefs (renamed, None) rename_site;
      emit (Info_renamed_fptrs renamed)
  end.

End NewProcRenamer.

(** ** Observations on a run *)

(** The entry addresses a run has reached, from its [log_debug] records. *)
Definition visited (l : list LogRecord) : list Z :=
  omap (fun r => match r with Debug_analyzing a => Some a | _ => None end) l.

(** The three reads that resolve the entry at [addr]: its function address,
    its offset and the address of its name, when all three succeed. *)
Definition entry_fields (bv : BinaryView) (base_addr addr : Z) : option (Z * Z * Z) :=
  func_addr ← br_read bv addr (Z.to_nat (ptr_size bv));
  entry_offset ← br_read bv (addr + ptr_size bv) (Z.to_nat (ptr_size bv));
  name_str_offset ← br_read bv (base_addr + entry_offset + ptr_size bv) 4;
  Some (func_addr, entry_offset, base_addr + name_str_offset).

Definition logged (rs : list LogRecord) (st : State) : State :=
  {| db := db st; log := log st ++ rs |}.

Definition empty_db : Database :=
  {| functions := ∅; symbols := ∅; data_vars := ∅ |}.

Definition fresh : State := {| db := empty_db; log := [] |}.

(** ** Sample views *)

Definition zeros (n : nat) : list Byte.byte := repeat Byte.x00 n.

Definition le64 (b0 b1 : Byte.byte) : list Byte.byte :=
  [b0; b1; Byte.x00; Byte.x00; Byte.x00; Byte.x00; Byte.x00; Byte.x00].

Definition header64 : list Byte.byte :=
  [Byte.xfb; Byte.xff; Byte.xff; Byte.xff; Byte.x00; Byte.x00; Byte.x01; Byte.x08].

(** A 64-bit view with the given image and strings, no section and no code. *)
Definition view64 (segs : list (Z * list Byte.byte)) (strs : list (Z * string))
    (secs : gmap string BvSection) : BinaryView :=
  {| address_size := 8;
     sections := secs;
     mem := mem_of_segments segs;
     bv_end := 0x3000;
     get_ascii_string_at := fun a => snd <$> find (fun p => bool_decide (fst p = a)) strs;
     get_code_refs := fun _ => [];
     get_basic_blocks_at := fun _ => [];
     low_level_il := fun _ _ => None;
     auto_name := fun _ => "sub" |}.

(** A table at [0x1000] whose size field holds 16, one entry of two 8-byte
    pointers: the function at [0x2000], named ["main.foo"] at [0x1200].
    The bytes up to [0x1300] are mapped and zero where nothing is stored. *)
Definition one_entry_view : BinaryView :=
  view64
    [ (0x1000, (header64 ++ le64 Byte.x10 Byte.x00
                  ++ le64 Byte.x00 Byte.x20 ++ le64 Byte.x00 Byte.x01)%list);
      (0x1108, [Byte.x00; Byte.x02; Byte.x00; Byte.x00]);
      (0x1000, zeros 0x300) ]
    [ (0x1200, "main.foo") ]
    {[ ".gopclntab" := {| sec_start := 0x1000 |} ]}.

(** The database once a function is known to exist at [f] (lines 127-129). *)
Definition ensure_function (f : Z) (d : Database) : Database :=
  match get_function_at d f with
  | None => create_user_function f d
  | Some _ => d
  end.

(** The range of the loop as the specification words it, with the end at
    [base_addr + raw_size * pointer_width]. *)
Definition entry_range_as_specified (bv : BinaryView) (base_addr raw_size : Z)
    : option (list Z) :=
  Py.range (base_addr + 8 + ptr_size bv) (base_addr + raw_size * ptr_size bv)
           (2 * ptr_size bv).

Definition le32 (b0 b1 : Byte.byte) : list Byte.byte :=
  [b0; b1; Byte.x00; Byte.x00].

(** A table at [0x1000] with three entries: the functions at [0x2100],
    [0x2200] and [0x2300], whose names are ["ab"], ["a b"] and, for the
    third, no string at all. *)
Definition short_names_view : BinaryView :=
  view64
    [ (0x1000, (header64 ++ le64 Byte.x30 Byte.x00
                  ++ le64 Byte.x00 Byte.x21 ++ le64 Byte.x00 Byte.x01
                  ++ le64 Byte.x00 Byte.x22 ++ le64 Byte.x10 Byte.x01
                  ++ le64 Byte.x00 Byte.x23 ++ le64 Byte.x20 Byte.x01)%list);
      (0x1108, le32 Byte.x00 Byte.x02);
      (0x1118, le32 Byte.x10 Byte.x02);
      (0x1128, le32 Byte.x20 Byte.x02);
      (0x1000, zeros 0x300) ]
    [ (0x1200, "ab"); (0x1210, "a b") ]
    {[ ".gopclntab" := {| sec_start := 0x1000 |} ]}.

(** A table at [0x1000] whose size field holds 3, so that the loop runs
    over [0x1010] and [0x1020].  The 16 bytes at [0x1010] are not mapped;
    the entry at [0x1020] is the function at [0x2100], named ["main.bar"]. *)
Definition hole_view : BinaryView :=
  view64
    [ (0x1000, (header64 ++ le64 Byte.x03 Byte.x00)%list);
      (0x1020, (le64 Byte.x00 Byte.x21 ++ le64 Byte.x00 Byte.x01)%list);
      (0x1108, le32 Byte.x00 Byte.x02);
      (0x1020, zeros 0x2e0) ]
    [ (0x1200, "main.bar") ]
    {[ ".gopclntab" := {| sec_start := 0x1000 |} ]}.

(** No section; the signature stands at [0x1000] and again at [0x1800]. *)
Definition signature_view : BinaryView :=
  view64
    [ (0x1000, (header64 ++ le64 Byte.x00 Byte.x00)%list);
      (0x1800, header64) ]
    [] ∅.

(** Neither a section nor the signature. *)
Definition bare_view : BinaryView :=
  view64 [ (0x1000, zeros 0x100) ] [] ∅.

(** A 64-bit view of which only the four bytes at [0x1000] are mapped. *)
Definition short_read_view : BinaryView :=
  view64 [ (0x1000, [Byte.x78; Byte.x56; Byte.x34; Byte.x12]) ] [] ∅.

(** A caller of [go.runtime.newproc]: the call at [0x400010] in the
    function at [0x400000], behind two five-byte pushes, of the constant 8
    at [0x40000b] and of the constant [0x500000] at [0x400006].  The eight
    bytes at [0x500000] hold [0x400100], where the function
    [go.main.worker] is. *)
Definition call_newproc : LowLevelILInstruction :=
  {| operation := LLIL_CALL; src_value := None |}.

Definition push_size : LowLevelILInstruction :=
  {| operation := LLIL_PUSH; src_value := Some 8 |}.

Definition push_fptr : LowLevelILInstruction :=
  {| operation := LLIL_PUSH; src_value := Some 0x500000 |}.

Definition newproc_view : BinaryView :=
  {| address_size := 8;
     sections := ∅;
     mem := mem_of_segments
              [ (0x500000, [Byte.x00; Byte.x01; Byte.x40; Byte.x00;
                            Byte.x00; Byte.x00; Byte.x00; Byte.x00]) ];
     bv_end := 0x600000;
     get_ascii_string_at := fun _ => None;
     get_code_refs := fun a => if decide (a = 0x400200) then [0x400010] else [];
     get_basic_blocks_at := fun a =>
       if decide (a = 0x400010)
       then [ {| bb_length := 0x20; bb_function := 0x400000 |} ] else [];
     low_level_il := fun fn a =>
       if decide (fn = 0x400000) then
         if decide (a = 0x400010) then Some call_newproc
         else if decide (a = 0x40000b) then Some push_size
         else if decide (a = 0x400006) then Some push_fptr
         else None
       else None;
     auto_name := fun _ => "sub" |}.

Definition newproc_state : State :=
  {| db := {| functions := {[ 0x400000; 0x400100; 0x400200 ]};
              symbols :=
                {[ 0x400200 := mkSymbol FunctionSymbol 0x400200
                                 "go.runtime.newproc" "go.runtime.newproc";
                   0x400100 := mkSymbol FunctionSymbol 0x400100
                                 "go.main.worker" "go.main.worker" ]};
              data_vars := ∅ |};
     log := [] |}.


(** ** Shapes of strings and of the database, for the properties below *)

(** Every character of [s] satisfies [P]. *)
Fixpoint str_forall (P : ascii -> bool) (s : string) : bool :=
  match s with
  | EmptyString => true
  | String c t => P c && str_forall P t
  end.

Definition not_space (c : ascii) : bool := negb (Ascii.eqb c " "%char).

Definition var_char (c : ascii) : bool := name_char c || Ascii.eqb c underscore.

(** No underscore of [s] is followed by another. *)
Fixpoint single_underscores (s : string) : bool :=
  match s with
  | EmptyString => true
  | String a t =>
      negb (Ascii.eqb a underscore
            && match t with
               | String b _ => Ascii.eqb b underscore
               | EmptyString => false
               end)
      && single_underscores t
  end.

(** The database with the functions [fs] added and the symbols [syms] laid
    over the ones it has. *)
Definition overlay (fs : gset Z) (syms : gmap Z Symbol) (d : Database) : Database :=
  {| functions := fs ∪ functions d;
     symbols := syms ∪ symbols d;
     data_vars := data_vars d |}.

(** A symbol as the walk defines them: a function symbol at its own
    address, named [go.] followed by a sanitized name of a raw name longer
    than two characters. *)
Definition go_symbol (a : Z) (sym : Symbol) : Prop :=
  exists name,
    (2 < String.length name)%nat
    /\ sym = mkSymbol FunctionSymbol a
               (GOFUNC_PREFIX ++ santize_gofunc_name name)
               (GOFUNC_PREFIX ++ santize_gofunc_name name).

(** The symbols [syms] are such symbols, at addresses among [fs]. *)
Definition go_symbols (fs : gset Z) (syms : gmap Z Symbol) : Prop :=
  forall a sym, syms !! a = Some sym -> a ∈ fs /\ go_symbol a sym.

(** The outcome of a computation whose result, when it returns, is the
    counter moved by [k]. *)
Definition counted (e : option exn) (k renamed : Z) : exn + Z :=
  match e with
  | Some x => inl x
  | None => inr (renamed + k)
  end.

(** A view with 2-byte pointers, and a 64-bit view whose size field cannot
    be read; both have the section at [0x1000]. *)
Definition narrow_view : BinaryView :=
  {| address_size := 2;
     sections := {[ ".gopclntab" := {| sec_start := 0x1000 |} ]};
     mem := mem_of_segments [ (0x1000, zeros 0x100) ];
     bv_end := 0x3000;
     get_ascii_string_at := fun _ => None;
     get_code_refs := fun _ => [];
     get_basic_blocks_at := fun _ => [];
     low_level_il := fun _ _ => None;
     auto_name := fun _ => "sub" |}.

Definition header_only_view : BinaryView :=
  view64 [ (0x1000, header64) ] []
         {[ ".gopclntab" := {| sec_start := 0x1000 |} ]}.

(** A 64-bit view whose table at [0x1000] has the size field 1. *)
Definition size_one_view : BinaryView :=
  view64 [ (0x1000, (header64 ++ le64 Byte.x01 Byte.x00)%list);
           (0x1000, zeros 0x100) ] []
         {[ ".gopclntab" := {| sec_start := 0x1000 |} ]}.

(** The view [bv] with other decoded instructions. *)
Definition with_low_level_il (bv : BinaryView)
    (il : Z -> Z -> option LowLevelILInstruction) : BinaryView :=
  {| address_size := address_size bv;
     sections := sections bv;
     mem := mem bv;
     bv_end := bv_end bv;
     get_ascii_string_at := get_ascii_string_at bv;
     get_code_refs := get_code_refs bv;
     get_basic_blocks_at := get_basic_blocks_at bv;
     low_level_il := il;
     auto_name := auto_name bv |}.

Definition other_inst : LowLevelILInstruction :=
  {| operation := LLIL_OTHER; src_value := None |}.

(** The sample caller with two more instructions, one in the byte before
    the call and one 14 bytes before it. *)
Definition crowded_view : BinaryView :=
  with_low_level_il newproc_view
    (fun fn a =>
       if decide (a = 0x40000f) then Some other_inst
       else if decide (a = 0x400002) then Some other_inst
       else low_level_il newproc_view fn a).

(** The sample caller with a single push, two bytes before the call, and no
    other instruction behind it. *)
Definition lone_push_view : BinaryView :=
  with_low_level_il newproc_view
    (fun fn a =>
       if decide (a = 0x400010) then Some call_newproc
       else if decide (a = 0x40000e) then Some push_fptr
       else None).

(** The sample caller with nothing decoded behind the call. *)
Definition bare_call_view : BinaryView :=
  with_low_level_il newproc_view
    (fun fn a => if decide (a = 0x400010) then Some call_newproc else None).

(** The sample caller with a push where the call was. *)
Definition not_call_view : BinaryView :=
  with_low_level_il newproc_view
    (fun fn a => if decide (a = 0x400010) then Some push_size else None).

(** ** Proof automation *)

Ltac run_M :=
  unfold mbind, M_bind, mret, M_ret, raise, emit, modify_db, get_db, py_int,
    logged; simpl.
(** * Properties *)

(** ** The sanitizers *)

Section Sanitizers.

Lemma underscore_other : name_char underscore = false.
Proof. reflexivity. Qed.

Lemma name_char_not_underscore c :
  name_char c = true -> Ascii.eqb c underscore = false.
Proof.
  intros H. destruct (Ascii.eqb_spec c underscore) as [->|]; [|done].
  by rewrite underscore_other in H.
Qed.

Lemma underscore_run_replace s :
  underscore_run (RE_REPLACE_UNDERSCORE_sub s) = other_run s.
Proof.
  induction s as [|c t IH]; [done|]. simpl.
  destruct (name_char c) eqn:E; simpl.
  - by rewrite (name_char_not_underscore c E).
  - by rewrite IH.
Qed.

(** The two substitutions together collapse runs: [skip] characters of
    the run that has been replaced are still to be passed over. *)
Lemma compress_replace s :
  RE_COMPRESS_UNDERSCORE_from 0 (RE_REPLACE_UNDERSCORE_sub s)
    = collapse_runs false s
  /\ RE_COMPRESS_UNDERSCORE_from (other_run s) (RE_REPLACE_UNDERSCORE_sub s)
    = collapse_runs true s.
Proof.
  induction s as [|c t [IH0 IH1]]; [done|].
  simpl. destruct (name_char c) eqn:E.
  - simpl. unfold RE_COMPRESS_UNDERSCORE_match. simpl.
    rewrite (name_char_not_underscore c E). simpl.
    by rewrite IH0.
  - simpl. split; [|exact IH1].
    unfold RE_COMPRESS_UNDERSCORE_match. simpl.
    rewrite underscore_run_replace.
    rewrite <- IH1.
    by destruct (other_run t) as [|n].
Qed.

Lemma sanitize_var_name_collapse s :
  sanitize_var_name s = collapse_runs false s.
Proof. apply compress_replace. Qed.

Lemma collapse_runs_ends b rest :
  run_ends rest -> collapse_runs b rest = collapse_runs false rest.
Proof. destruct rest as [|c t]; [done|]. simpl. by intros ->. Qed.

Lemma collapse_runs_run run rest :
  all_other run -> collapse_runs true (run ++ rest) = collapse_runs true rest.
Proof.
  induction run as [|c t IH]; [done|]. simpl. intros [-> H]. auto.
Qed.

Lemma collapsed_sound s r : collapsed s r -> r = collapse_runs false s.
Proof.
  induction 1 as [|c t r Hc _ IH|run rest r Hne Hrun Hend _ IH]; [done|..].
  - simpl. by rewrite Hc, IH.
  - destruct run as [|c run]; [done|]. destruct Hrun as [Hc Hrun].
    simpl. rewrite Hc, (collapse_runs_run _ _ Hrun).
    by rewrite (collapse_runs_ends _ _ Hend), IH.
Qed.

Lemma collapsed_grow c d t r :
  name_char c = false -> name_char d = false ->
  collapsed (String d t) r -> collapsed (String c (String d t)) r.
Proof.
  intros Hc Hd H. inversion H as [|? ? ? Hd'|run rest r' Hne Hrun Hend Hr Heq]; subst.
  - congruence.
  - change (String c (run ++ rest)) with (String c run ++ rest).
    apply collapsed_run; [done|by split|done|done].
Qed.

Lemma collapsed_complete s :
  collapsed s (collapse_runs false s)
  /\ forall c, name_char c = false ->
       collapsed (String c s) (String underscore (collapse_runs true s)).
Proof.
  induction s as [|d t [IH0 IH1]].
  - split; [constructor|]. intros c Hc.
    apply (collapsed_run (String c "") "" ""); [done|by split|done|constructor].
  - simpl. destruct (name_char d) eqn:Hd.
    + assert (collapsed (String d t) (String d (collapse_runs false t)))
        by (by constructor).
      split; [done|]. intros c Hc.
      by apply (collapsed_run (String c "") (String d t)).
    + split; [by apply IH1|]. intros c Hc.
      apply collapsed_grow; auto.
Qed.

Lemma str_remove_absent c s :
  Py.str_remove c (Py.str_remove c s) = Py.str_remove c s.
Proof.
  induction s as [|a t IH]; [done|]. simpl.
  destruct (Ascii.eqb a c) eqn:E; [done|]. simpl. by rewrite E, IH.
Qed.

Lemma collapse_runs_true_ends s : run_ends (collapse_runs true s).
Proof.
  induction s as [|c t IH]; [done|]. simpl.
  destruct (name_char c) eqn:E; [done|exact IH].
Qed.

Lemma collapse_runs_fixed b s :
  collapse_runs false (collapse_runs b s) = collapse_runs b s.
Proof.
  revert b. induction s as [|c t IH]; intros b; [done|]. simpl.
  destruct (name_char c) eqn:E.
  - simpl. by rewrite E, IH.
  - destruct b; [apply IH|]. simpl.
    rewrite (collapse_runs_ends true _ (collapse_runs_true_ends t)).
    by rewrite IH.
Qed.

End Sanitizers.

(** C8: [sanitize_var_name] (the spec's [sanitize_data_name]) replaces
    every maximal run of characters other than ASCII letters, digits and
    [.] with a single underscore: its result is the one string that is the
    input with the runs collapsed.  In particular ["a  --b"] and ["a___b"]
    both become ["a_b"]. *)
Theorem sanitize_var_name_collapses_runs :
  (forall s r, collapsed s r <-> r = sanitize_var_name s)
  /\ sanitize_var_name "a  --b" = "a_b"
  /\ sanitize_var_name "a___b" = "a_b".
Proof.
  split; [|split; reflexivity].
  intros s r. rewrite sanitize_var_name_collapse. split.
  - apply collapsed_sound.
  - intros ->. apply collapsed_complete.
Qed.

(** C9: both sanitizers are total functions of their argument alone, and
    applying either a second time changes nothing. *)
Theorem sanitizers_idempotent :
  (forall x, santize_gofunc_name (santize_gofunc_name x) = santize_gofunc_name x)
  /\ (forall x, sanitize_var_name (sanitize_var_name x) = sanitize_var_name x).
Proof.
  split; intros x.
  - apply str_remove_absent.
  - rewrite !sanitize_var_name_collapse. apply collapse_runs_fixed.
Qed.

(** ** [range] *)

Lemma range_from_length start step n :
  length (Py.range_from start step n) = n.
Proof. revert start. induction n as [|n IH]; intros; simpl; [done|by rewrite IH]. Qed.

Lemma range_from_lookup start step n (i : nat) :
  Py.range_from start step n !! i
    = if decide (i < n)%nat then Some (start + Z.of_nat i * step) else None.
Proof.
  revert start i. induction n as [|n IH]; intros start i.
  - destruct (decide (i < 0)%nat); [lia|done].
  - destruct i as [|i]; simpl.
    + destruct (decide (0 < S n)%nat); [f_equal; lia|lia].
    + rewrite IH.
      destruct (decide (i < n)%nat), (decide (S i < S n)%nat);
        try lia; f_equal; lia.
Qed.

(** With a positive step, [range] holds the [start + i * step] below
    [stop], and nothing else. *)
Lemma range_len_spec start stop step (i : nat) :
  0 < step ->
  (i < Z.to_nat (Py.range_len start stop step))%nat
    <-> start + Z.of_nat i * step < stop.
Proof.
  intros Hstep. unfold Py.range_len.
  destruct (Z.ltb_spec 0 step); [|lia].
  destruct (Z.ltb_spec start stop).
  - assert (Hq : 0 <= (stop - start - 1) / step) by (apply Z.div_pos; lia).
    pose proof (Z.div_mod (stop - start - 1) step ltac:(lia)) as Hdm.
    pose proof (Z.mod_pos_bound (stop - start - 1) step Hstep) as Hm.
    split; intros Hi; nia.
  - simpl. split; [lia|nia].
Qed.

Lemma range_lookup start stop step (i : nat) :
  0 < step ->
  exists l, Py.range start stop step = Some l
    /\ l !! i = if decide (start + Z.of_nat i * step < stop)
                then Some (start + Z.of_nat i * step) else None.
Proof.
  intros Hstep. unfold Py.range.
  destruct (Z.eqb_spec step 0); [lia|]. eexists; split; [done|].
  rewrite range_from_lookup.
  pose proof (range_len_spec start stop step i Hstep).
  repeat case_decide; tauto.
Qed.

(** The table of a view whose pointers are 4 or 8 bytes wide: the loop
    runs [size - 1] times when the size field holds [size >= 1]. *)
Lemma entry_range_length bv base_addr size :
  ptr_size bv = 4 \/ ptr_size bv = 8 -> 1 <= size ->
  exists addrs, entry_range bv base_addr size = Some addrs
    /\ Z.of_nat (length addrs) = size - 1.
Proof.
  intros Hp Hsize. unfold entry_range, Py.range.
  destruct (Z.eqb_spec (2 * ptr_size bv) 0); [lia|].
  eexists; split; [done|]. rewrite range_from_length.
  unfold Py.range_len.
  destruct (Z.ltb_spec 0 (2 * ptr_size bv)); [|lia].
  destruct Hp as [-> | ->].
  - destruct (Z.ltb_spec (base_addr + 8 + 4) (base_addr + size * 4 * 2)).
    + replace (base_addr + size * 4 * 2 - (base_addr + 8 + 4) - 1)
        with (3 + (size - 2) * (2 * 4)) by lia.
      rewrite Z.div_add by lia. change (3 / (2 * 4)) with 0. lia.
    + lia.
  - destruct (Z.ltb_spec (base_addr + 8 + 8) (base_addr + size * 8 * 2)).
    + replace (base_addr + size * 8 * 2 - (base_addr + 8 + 8) - 1)
        with (15 + (size - 2) * (2 * 8)) by lia.
      rewrite Z.div_add by lia. change (15 / (2 * 8)) with 0. lia.
    + lia.
Qed.

Lemma find_range_from (P : Z -> bool) start n :
  match find P (Py.range_from start 1 n) with
  | Some b => start <= b < start + Z.of_nat n /\ P b = true
              /\ forall c, start <= c < b -> P c = false
  | None => forall c, start <= c < start + Z.of_nat n -> P c = false
  end.
Proof.
  revert start. induction n as [|n IH]; intros start; simpl.
  - lia.
  - destruct (P start) eqn:E.
    + split; [lia|]. split; [done|lia].
    + specialize (IH (start + 1)).
      destruct (find P _) as [b|].
      * destruct IH as (Hb & HP & Hlow). split; [lia|]. split; [done|].
        intros c Hc. destruct (decide (c = start)) as [->|]; [done|].
        apply Hlow. lia.
      * intros c Hc. destruct (decide (c = start)) as [->|]; [done|].
        apply IH. lia.
Qed.

(** ** The monad and the reads *)

Lemma get_pointer_at_default bv a :
  ptr_size bv = 4 \/ ptr_size bv = 8 ->
  get_pointer_at bv a None = mret (br_read bv a (Z.to_nat (ptr_size bv))).
Proof.
  unfold get_pointer_at. intros [-> | ->]; repeat case_decide; done.
Qed.

(** ** One entry of the table *)

(** What the body of the loop does with an entry whose three reads
    succeed. *)
Lemma rename_entry_resolved bv base_addr addr renamed st f eo na :
  ptr_size bv = 4 \/ ptr_size bv = 8 ->
  entry_fields bv base_addr addr = Some (f, eo, na) ->
  rename_entry bv base_addr addr renamed st =
    match get_ascii_string_at bv na with
    | None | Some "" =>
        (logged [Debug_analyzing addr; Debug_func_addr f eo] st, inr renamed)
    | Some name =>
        if decide (2 < String.length name)%nat then
          let name' := GOFUNC_PREFIX ++ santize_gofunc_name name in
          ({| db := define_user_symbol (mkSymbol FunctionSymbol f name' name')
                      (ensure_function f (db st));
              log := log st ++ [Debug_analyzing addr; Debug_func_addr f eo;
                                Debug_found_name name f] |},
           inr (renamed + 1))
        else
          ({| db := ensure_function f (db st);
              log := log st ++ [Debug_analyzing addr; Debug_func_addr f eo;
                                Debug_found_name name f;
                                Warn_not_using_name name f addr na] |},
           inr renamed)
    end.
Proof.
  intros Hp Hf. unfold entry_fields in Hf. unfold rename_entry.
  rewrite !(get_pointer_at_default _ _ Hp).
  destruct (br_read bv addr _) as [f'|]; [|done].
  destruct (br_read bv (addr + _) _) as [eo'|]; [|done].
  simpl in Hf.
  run_M.
  destruct (br_read bv (base_addr + eo' + _) 4) as [off|] eqn:Hoff; [|done].
  simpl in Hf. injection Hf as -> -> <-. simpl.
  unfold ensure_function.
  destruct (get_ascii_string_at bv _) as [[|c name]|]; simpl;
    rewrite <- ?app_assoc; try done.
  destruct (get_function_at (db st) f); simpl;
    case_decide; simpl; rewrite <- ?app_assoc; done.
Qed.

(** An entry one of whose three reads fails: the body raises, and the
    database is as it was. *)
Lemma rename_entry_unreadable bv base_addr addr renamed st :
  ptr_size bv = 4 \/ ptr_size bv = 8 ->
  entry_fields bv base_addr addr = None ->
  exists rs,
    rename_entry bv base_addr addr renamed st
      = (logged (Debug_analyzing addr :: rs) st, inl TypeError)
    /\ visited rs = [].
Proof.
  intros Hp Hf. unfold entry_fields in Hf. unfold rename_entry.
  rewrite !(get_pointer_at_default _ _ Hp).
  run_M.
  destruct (br_read bv addr _) as [f'|]; simpl in *.
  2:{ exists []. done. }
  destruct (br_read bv (addr + _) _) as [eo'|]; simpl in *.
  2:{ exists []. done. }
  destruct (br_read bv (base_addr + eo' + _) 4) as [off|]; [done|].
  exists [Debug_func_addr f' eo']. by rewrite <- app_assoc.
Qed.

(** ** The walk *)

Lemma visited_app l1 l2 : visited (l1 ++ l2) = (visited l1 ++ visited l2)%list.
Proof. apply omap_app. Qed.

(** Whatever the entry, the body logs its address once, and nothing else
    that counts as a visit. *)
Lemma rename_entry_visited bv base_addr addr renamed st :
  ptr_size bv = 4 \/ ptr_size bv = 8 ->
  visited (log (rename_entry bv base_addr addr renamed st).1)
    = (visited (log st) ++ [addr])%list.
Proof.
  intros Hp. destruct (entry_fields bv base_addr addr) as [[[f eo] na]|] eqn:Hf.
  - rewrite (rename_entry_resolved _ _ _ _ _ _ _ _ Hp Hf).
    destruct (get_ascii_string_at bv na) as [[|c name]|];
      [| case_decide |]; simpl; by rewrite visited_app.
  - destruct (rename_entry_unreadable _ _ _ renamed st Hp Hf) as (rs & -> & Hrs).
    simpl. by rewrite visited_app; simpl; rewrite Hrs.
Qed.

(** The loop visits the addresses in order, up to the first entry that
    raises; when it returns it has visited them all. *)
Lemma for_each_visited bv base_addr addrs renamed st :
  ptr_size bv = 4 \/ ptr_size bv = 8 ->
  exists reached,
    reached `prefix_of` addrs
    /\ visited (log (for_each addrs renamed (rename_entry bv base_addr) st).1)
       = (visited (log st) ++ reached)%list
    /\ (forall n, (for_each addrs renamed (rename_entry bv base_addr) st).2 = inr n ->
        reached = addrs).
Proof.
  intros Hp. revert renamed st.
  induction addrs as [|addr rest IH]; intros renamed st.
  - exists []. simpl. by rewrite app_nil_r.
  - simpl. unfold mbind, M_bind.
    pose proof (rename_entry_visited bv base_addr addr renamed st Hp) as Hv.
    destruct (rename_entry bv base_addr addr renamed st) as [st' [e|renamed']].
    + exists [addr]. simpl in *. split; [by apply prefix_cons, prefix_nil|].
      split; [done|]. intros n [=].
    + destruct (IH renamed' st') as (reached & Hpre & Hvis & Hall).
      exists (addr :: reached). split; [by apply prefix_cons|].
      simpl in Hv. rewrite Hvis, Hv, <- app_assoc. split; [done|].
      intros n Hn. by rewrite (Hall n Hn).
Qed.

(** ** Where the table is *)

Lemma locate_section bv st sec :
  sections bv !! ".gopclntab" = Some sec ->
  locate bv st = (st, inr (Some (sec_start sec))).
Proof. intros H. unfold locate, get_section_by_name. by rewrite H. Qed.


Lemma locate_found bv st base_addr :
  (locate bv st).2 = inr (Some base_addr) ->
  forall st', locate bv st' = (st', inr (Some base_addr)).
Proof.
  unfold locate. destruct (get_section_by_name bv _); [by intros [= <-]|].
  destruct (find_next_data bv 0 pattern); [by intros [= <-]|done].
Qed.

(** The run once the table is found and its size field read. *)
Lemma rename_functions_found bv st base_addr size addrs :
  ptr_size bv = 4 \/ ptr_size bv = 8 ->
  (locate bv st).2 = inr (Some base_addr) ->
  br_read bv (base_addr + 8) (Z.to_nat (ptr_size bv)) = Some size ->
  entry_range bv base_addr size = Some addrs ->
  rename_functions bv st =
    let r := for_each addrs 0 (rename_entry bv base_addr)
               (logged [Info_renaming_functions;
                        Info_found_gopclntab base_addr (size / (ptr_size bv * 2))]
                       st) in
    match r.2 with
    | inl e => (r.1, inl e)
    | inr renamed => (logged [Info_renamed_functions renamed] r.1, inr tt)
    end.
Proof.
  intros Hp Hloc Hsize Hrange. unfold rename_functions.
  unfold mbind at 1, M_bind at 1. simpl.
  unfold mbind at 1, M_bind at 1.
  rewrite (locate_found _ _ _ Hloc).
  rewrite (get_pointer_at_default _ _ Hp), Hsize.
  run_M. rewrite Hrange, <- app_assoc. simpl.
  by destruct (for_each addrs 0 _ _) as [st' [e|n]].
Qed.

(** C3, amended: the walker starts at [base_addr + 8 + pointer_width],
    steps by [2 * pointer_width] and stops before
    [base_addr + raw_size * pointer_width * 2], [raw_size] being the value
    read at [base_addr + 8]: the addresses of that range are the ones the
    run visits, in that order, all of them unless an entry raises. *)
Theorem walk_range bv st base_addr raw_size :
  ptr_size bv = 4 \/ ptr_size bv = 8 ->
  (locate bv st).2 = inr (Some base_addr) ->
  br_read bv (base_addr + 8) (Z.to_nat (ptr_size bv)) = Some raw_size ->
  exists addrs reached,
    (forall i : nat,
       let addr := base_addr + 8 + ptr_size bv + Z.of_nat i * (2 * ptr_size bv) in
       addrs !! i = if decide (addr < base_addr + raw_size * ptr_size bv * 2)
                    then Some addr else None)
    /\ reached `prefix_of` addrs
    /\ visited (log (rename_functions bv st).1) = (visited (log st) ++ reached)%list
    /\ ((rename_functions bv st).2 = inr tt -> reached = addrs).
Proof.
  intros Hp Hloc Hsize.
  assert (Hstep : 0 < 2 * ptr_size bv) by lia.
  destruct (range_lookup (base_addr + 8 + ptr_size bv)
              (base_addr + raw_size * ptr_size bv * 2) _ 0 Hstep)
    as (addrs & Hrange & _).
  rewrite (rename_functions_found _ _ _ _ addrs Hp Hloc Hsize Hrange).
  set (st0 := logged _ st).
  destruct (for_each_visited bv base_addr addrs 0 st0 Hp)
    as (reached & Hpre & Hvis & Hall).
  exists addrs, reached. split; [|split; [done|]].
  - intros i addr.
    destruct (range_lookup (base_addr + 8 + ptr_size bv)
                (base_addr + raw_size * ptr_size bv * 2) _ i Hstep)
      as (addrs' & Hrange' & Hi).
    rewrite Hrange in Hrange'. by injection Hrange' as <-.
  - assert (Hst0 : visited (log st0) = visited (log st))
      by (unfold st0; simpl; rewrite visited_app; apply app_nil_r).
    rewrite Hst0 in Hvis. simpl.
    destruct (for_each addrs 0 _ st0) as [st' [e|n]] eqn:E; simpl in *.
    + split; [done|]. intros [=].
    + rewrite visited_app, Hvis. simpl. rewrite app_nil_r.
      split; [done|]. intros _. by apply (Hall n).
Qed.

(** ** The claims about the walk *)

(** C1 (the code departs from it): a well-formed table of [entry_count]
    entries should have exactly [entry_count] entries visited, in table
    order.  Take a table at [0x1000] with one entry, whose size field holds
    [1 * 2 * 8] and whose bytes are all readable: the run reports one entry
    and then visits fifteen entry addresses, [0x1010] to [0x10f0]. *)
Theorem one_entry_table_walk :
  ptr_size one_entry_view = 8
  /\ (locate one_entry_view fresh).2 = inr (Some 0x1000)
  /\ br_read one_entry_view (0x1000 + 8) 8 = Some (1 * 2 * 8)
  /\ (rename_functions one_entry_view fresh).2 = inr tt
  /\ In (Info_found_gopclntab 0x1000 1) (log (rename_functions one_entry_view fresh).1)
  /\ visited (log (rename_functions one_entry_view fresh).1)
     = [0x1010; 0x1020; 0x1030; 0x1040; 0x1050; 0x1060; 0x1070; 0x1080;
        0x1090; 0x10a0; 0x10b0; 0x10c0; 0x10d0; 0x10e0; 0x10f0].
Proof. vm_compute. repeat split. right. by left. Qed.

(** C3 as stated fails: with the size field 16 and 8-byte pointers, the
    range that ends at [base_addr + raw_size * pointer_width] has seven
    addresses; the loop runs over fifteen. *)
Lemma walk_range_not_as_specified :
  br_read one_entry_view (0x1000 + 8) 8 = Some 16
  /\ entry_range_as_specified one_entry_view 0x1000 16
     = Some [0x1010; 0x1020; 0x1030; 0x1040; 0x1050; 0x1060; 0x1070]
  /\ visited (log (rename_functions one_entry_view fresh).1)
     = [0x1010; 0x1020; 0x1030; 0x1040; 0x1050; 0x1060; 0x1070; 0x1080;
        0x1090; 0x10a0; 0x10b0; 0x10c0; 0x10d0; 0x10e0; 0x10f0]
  /\ entry_range one_entry_view 0x1000 16
     <> entry_range_as_specified one_entry_view 0x1000 16.
Proof. vm_compute. repeat split. discriminate. Qed.

(** [walk_range] on the one-entry table. *)
Lemma walk_range_witness :
  (ptr_size one_entry_view = 4 \/ ptr_size one_entry_view = 8)
  /\ (locate one_entry_view fresh).2 = inr (Some 0x1000)
  /\ br_read one_entry_view (0x1000 + 8) (Z.to_nat (ptr_size one_entry_view)) = Some 16
  /\ exists addrs reached,
       (forall i : nat,
          let addr := 0x1000 + 8 + ptr_size one_entry_view
                      + Z.of_nat i * (2 * ptr_size one_entry_view) in
          addrs !! i = if decide (addr < 0x1000 + 16 * ptr_size one_entry_view * 2)
                       then Some addr else None)
       /\ reached `prefix_of` addrs
       /\ visited (log (rename_functions one_entry_view fresh).1)
          = (visited (log fresh) ++ reached)%list
       /\ ((rename_functions one_entry_view fresh).2 = inr tt -> reached = addrs).
Proof.
  split; [right; reflexivity|]. split; [reflexivity|]. split; [reflexivity|].
  apply (walk_range one_entry_view fresh 0x1000 16);
    [right; reflexivity | reflexivity | reflexivity].
Defined.

(** C4 as stated fails: the entry at [0x1010] cannot be read, the entry at
    [0x1020] can and would be named [go.main.bar]; the run raises at the
    first and never reaches the second. *)
Lemma unreadable_entry_ends_walk :
  entry_range hole_view 0x1000 3 = Some [0x1010; 0x1020]
  /\ entry_fields hole_view 0x1000 0x1010 = None
  /\ (rename_entry hole_view 0x1000 0x1020 0 fresh).2 = inr 1
  /\ symbols (db (rename_entry hole_view 0x1000 0x1020 0 fresh).1) !! 0x2100
     = Some (mkSymbol FunctionSymbol 0x2100 "go.main.bar" "go.main.bar")
  /\ rename_functions hole_view fresh
     = ({| db := empty_db;
           log := [Info_renaming_functions; Info_found_gopclntab 0x1000 0;
                   Debug_analyzing 0x1010] |},
        inl TypeError).
Proof. vm_compute. repeat split. Qed.

(** C4, amended: an entry whose name string cannot be read is skipped and
    the walk goes on with the next entry; an entry of which the function
    pointer, the offset pointer or the 4-byte name offset cannot be read
    raises, which ends the walk there: the later entries are not
    processed, and the database is left as the earlier ones made it. *)
Theorem walk_skips_name_raises_pointer bv base_addr addr rest renamed st :
  ptr_size bv = 4 \/ ptr_size bv = 8 ->
  (forall f eo na,
     entry_fields bv base_addr addr = Some (f, eo, na) ->
     get_ascii_string_at bv na = None ->
     for_each (addr :: rest) renamed (rename_entry bv base_addr) st
       = for_each rest renamed (rename_entry bv base_addr)
           (logged [Debug_analyzing addr; Debug_func_addr f eo] st))
  /\ (entry_fields bv base_addr addr = None ->
      exists st',
        for_each (addr :: rest) renamed (rename_entry bv base_addr) st
          = (st', inl TypeError)
        /\ db st' = db st
        /\ visited (log st') = (visited (log st) ++ [addr])%list).
Proof.
  intros Hp. split.
  - intros f eo na Hf Hname. simpl. unfold mbind, M_bind.
    by rewrite (rename_entry_resolved _ _ _ _ _ _ _ _ Hp Hf), Hname.
  - intros Hf. simpl. unfold mbind, M_bind.
    destruct (rename_entry_unreadable _ _ _ renamed st Hp Hf) as (rs & -> & Hrs).
    eexists. split; [done|]. split; [done|]. simpl.
    by rewrite visited_app; simpl; rewrite Hrs.
Qed.

(** [walk_skips_name_raises_pointer] on an entry without a name and on an
    entry that cannot be read. *)
Lemma walk_skips_name_raises_pointer_witness :
  ((ptr_size short_names_view = 4 \/ ptr_size short_names_view = 8)
   /\ entry_fields short_names_view 0x1000 0x1030 = Some (0x2300, 0x120, 0x1220)
   /\ get_ascii_string_at short_names_view 0x1220 = None
   /\ for_each [0x1030; 0x1010] 0 (rename_entry short_names_view 0x1000) fresh
      = for_each [0x1010] 0 (rename_entry short_names_view 0x1000)
          (logged [Debug_analyzing 0x1030; Debug_func_addr 0x2300 0x120] fresh))
  /\ ((ptr_size hole_view = 4 \/ ptr_size hole_view = 8)
      /\ entry_fields hole_view 0x1000 0x1010 = None
      /\ exists st',
           for_each [0x1010; 0x1020] 0 (rename_entry hole_view 0x1000) fresh
             = (st', inl TypeError)
           /\ db st' = db fresh
           /\ visited (log st') = (visited (log fresh) ++ [0x1010])%list).
Proof.
  split.
  - split; [right; reflexivity|]. split; [reflexivity|]. split; [reflexivity|].
    apply (proj1 (walk_skips_name_raises_pointer
                    short_names_view 0x1000 0x1030 [0x1010] 0 fresh
                    (or_intror eq_refl)) 0x2300 0x120 0x1220);
      reflexivity.
  - split; [right; reflexivity|]. split; [reflexivity|].
    apply (proj2 (walk_skips_name_raises_pointer
                    hole_view 0x1000 0x1010 [0x1020] 0 fresh
                    (or_intror eq_refl)));
      reflexivity.
Defined.

(** ** The claims about naming *)

Lemma ensure_function_functions f d :
  functions (ensure_function f d) = {[ f ]} ∪ functions d.
Proof.
  unfold ensure_function, get_function_at. case_decide; simpl; [|done].
  symmetry. by apply subseteq_union_1_L, singleton_subseteq_l.
Qed.

Lemma ensure_function_symbols f d :
  symbols (ensure_function f d) = symbols d.
Proof. unfold ensure_function. by destruct (get_function_at _ _). Qed.

Lemma ensure_function_data_vars f d :
  data_vars (ensure_function f d) = data_vars d.
Proof. unfold ensure_function. by destruct (get_function_at _ _). Qed.

(** C2 as stated fails, twice.  The name ["ab"] is rejected, yet a
    function is created at the entry's address [0x2100], where there was
    none.  The name ["a b"] is two characters long once sanitized, yet it
    is accepted: the function at [0x2200] gets the symbol [go.ab] and the
    counter goes up. *)
Lemma short_name_still_creates_function :
  ((String.length (santize_gofunc_name "ab") <= 2)%nat
   /\ entry_fields short_names_view 0x1000 0x1010 = Some (0x2100, 0x100, 0x1200)
   /\ get_ascii_string_at short_names_view 0x1200 = Some "ab"
   /\ get_function_at (db fresh) 0x2100 = None
   /\ get_function_at
        (db (rename_entry short_names_view 0x1000 0x1010 0 fresh).1) 0x2100
      = Some 0x2100)
  /\ ((String.length (santize_gofunc_name "a b") <= 2)%nat
      /\ entry_fields short_names_view 0x1000 0x1020 = Some (0x2200, 0x110, 0x1210)
      /\ get_ascii_string_at short_names_view 0x1210 = Some "a b"
      /\ (rename_entry short_names_view 0x1000 0x1020 0 fresh).2 = inr 1
      /\ get_symbol_at
           (db (rename_entry short_names_view 0x1000 0x1020 0 fresh).1) 0x2200
         = Some (mkSymbol FunctionSymbol 0x2200 "go.ab" "go.ab")).
Proof. vm_compute. repeat split; lia. Qed.

(** C2, amended: the length that decides is that of the raw name, before
    sanitization.  For a non-empty raw name of at most 2 characters no
    symbol is defined, the counter stays and a warning is logged with the
    name, the function address, the table-entry address and the name
    address; a raw name of 3 characters or more is accepted, the symbol
    being [go.] followed by the sanitized name.  In both cases a function
    is created at the entry's function address if there is none. *)
Theorem short_raw_name_not_used bv base_addr addr renamed st f eo na name :
  ptr_size bv = 4 \/ ptr_size bv = 8 ->
  entry_fields bv base_addr addr = Some (f, eo, na) ->
  get_ascii_string_at bv na = Some name ->
  name <> "" ->
  let r := rename_entry bv base_addr addr renamed st in
  functions (db r.1) = {[ f ]} ∪ functions (db st)
  /\ data_vars (db r.1) = data_vars (db st)
  /\ ((String.length name <= 2)%nat ->
      r.2 = inr renamed
      /\ symbols (db r.1) = symbols (db st)
      /\ log r.1 = (log st ++ [Debug_analyzing addr; Debug_func_addr f eo;
                               Debug_found_name name f;
                               Warn_not_using_name name f addr na])%list)
  /\ ((3 <= String.length name)%nat ->
      let name' := GOFUNC_PREFIX ++ santize_gofunc_name name in
      r.2 = inr (renamed + 1)
      /\ symbols (db r.1)
         = <[ f := mkSymbol FunctionSymbol f name' name' ]> (symbols (db st))
      /\ log r.1 = (log st ++ [Debug_analyzing addr; Debug_func_addr f eo;
                               Debug_found_name name f])%list).
Proof.
  intros Hp Hf Hname Hne r. subst r.
  rewrite (rename_entry_resolved _ _ _ _ _ _ _ _ Hp Hf), Hname.
  destruct name as [|c name]; [done|].
  case_decide as Hlen; simpl in *;
    rewrite ensure_function_functions, ensure_function_symbols,
      ensure_function_data_vars;
    (split; [done|]); (split; [done|]); split; intros; try lia; done.
Qed.

(** [short_raw_name_not_used] on the entry named ["ab"]. *)
Lemma short_raw_name_not_used_witness :
  (ptr_size short_names_view = 4 \/ ptr_size short_names_view = 8)
  /\ entry_fields short_names_view 0x1000 0x1010 = Some (0x2100, 0x100, 0x1200)
  /\ get_ascii_string_at short_names_view 0x1200 = Some "ab"
  /\ "ab" <> ""
  /\ (String.length "ab" <= 2)%nat
  /\ (let r := rename_entry short_names_view 0x1000 0x1010 0 fresh in
      r.2 = inr 0
      /\ symbols (db r.1) = symbols (db fresh)
      /\ log r.1 = (log fresh ++ [Debug_analyzing 0x1010; Debug_func_addr 0x2100 0x100;
                                  Debug_found_name "ab" 0x2100;
                                  Warn_not_using_name "ab" 0x2100 0x1010 0x1200])%list).
Proof.
  split; [right; reflexivity|]. split; [reflexivity|]. split; [reflexivity|].
  split; [discriminate|]. split; [simpl; lia|].
  apply (proj1 (proj2 (proj2
           (short_raw_name_not_used short_names_view 0x1000 0x1010 0 fresh
              0x2100 0x100 0x1200 "ab"
              (or_intror eq_refl) eq_refl eq_refl ltac:(discriminate)))));
    simpl; lia.
Defined.

(** C10: an entry whose name lookup yields no string, be it absent or
    empty, leaves the database as it was and the counter where it was;
    only two debug records are logged.  An entry with a name, even one too
    short to be used, does reach the creation of the function. *)
Theorem no_name_no_mutation bv base_addr addr renamed st f eo na :
  ptr_size bv = 4 \/ ptr_size bv = 8 ->
  entry_fields bv base_addr addr = Some (f, eo, na) ->
  (get_ascii_string_at bv na = None \/ get_ascii_string_at bv na = Some "" ->
   rename_entry bv base_addr addr renamed st
     = ({| db := db st;
           log := log st ++ [Debug_analyzing addr; Debug_func_addr f eo] |},
        inr renamed))
  /\ (forall name,
        get_ascii_string_at bv na = Some name -> name <> "" ->
        (String.length name <= 2)%nat ->
        (rename_entry bv base_addr addr renamed st).2 = inr renamed
        /\ f ∈ functions (db (rename_entry bv base_addr addr renamed st).1)).
Proof.
  intros Hp Hf. split.
  - rewrite (rename_entry_resolved _ _ _ _ _ _ _ _ Hp Hf).
    by intros [-> | ->].
  - intros name Hname Hne Hlen.
    rewrite (rename_entry_resolved _ _ _ _ _ _ _ _ Hp Hf), Hname.
    destruct name as [|c name]; [done|].
    case_decide; [simpl in *; lia|]. simpl.
    rewrite ensure_function_functions.
    split; [done|by apply elem_of_union_l, elem_of_singleton].
Qed.

(** [no_name_no_mutation] on the entry whose name address holds no string. *)
Lemma no_name_no_mutation_witness :
  (ptr_size short_names_view = 4 \/ ptr_size short_names_view = 8)
  /\ entry_fields short_names_view 0x1000 0x1030 = Some (0x2300, 0x120, 0x1220)
  /\ get_ascii_string_at short_names_view 0x1220 = None
  /\ rename_entry short_names_view 0x1000 0x1030 0 fresh
     = ({| db := db fresh;
           log := log fresh ++ [Debug_analyzing 0x1030;
                                Debug_func_addr 0x2300 0x120] |},
        inr 0).
Proof.
  split; [right; reflexivity|]. split; [reflexivity|]. split; [reflexivity|].
  apply (proj1 (no_name_no_mutation short_names_view 0x1000 0x1030 0 fresh
                  0x2300 0x120 0x1220 (or_intror eq_refl) eq_refl)).
  left. reflexivity.
Defined.

(** ** Finding the table, reading pointers *)

Lemma data_at_true bv data a :
  data_at bv data a = true <-> bv_read bv a (Z.of_nat (length data)) = data.
Proof. unfold data_at. apply bool_decide_eq_true. Qed.

Lemma data_at_false bv data a :
  data_at bv data a = false <-> bv_read bv a (Z.of_nat (length data)) <> data.
Proof. unfold data_at. apply bool_decide_eq_false. Qed.

(** C6: the named section decides where it is present; without it the
    lowest address from 0 on where the six bytes of the signature stand is
    returned; with neither the run logs the alert and returns, the
    database untouched. *)
Theorem locate_section_then_signature bv st :
  pattern = [Byte.xfb; Byte.xff; Byte.xff; Byte.xff; Byte.x00; Byte.x00]
  /\ (forall sec,
     sections bv !! ".gopclntab" = Some sec ->
     locate bv st = (st, inr (Some (sec_start sec))))
  /\ (sections bv !! ".gopclntab" = None ->
      (forall a,
         0 <= a < bv_end bv -> bv_read bv a 6 = pattern ->
         exists b,
           locate bv st = (st, inr (Some b))
           /\ 0 <= b <= a
           /\ bv_read bv b 6 = pattern
           /\ forall c, 0 <= c < b -> bv_read bv c 6 <> pattern)
      /\ ((forall a, 0 <= a < bv_end bv -> bv_read bv a 6 <> pattern) ->
          rename_functions bv st
            = ({| db := db st;
                  log := log st ++ [Info_renaming_functions;
                                    Alert_section_not_found] |},
               inr tt))).
Proof.
  split; [reflexivity|].
  split; [intros sec; apply locate_section|].
  intros Hsec.
  pose proof (find_range_from (data_at bv pattern) 0
                (Z.to_nat (bv_end bv - 0))) as Hfind.
  split.
  - intros a Ha Hmatch. unfold locate, get_section_by_name. rewrite Hsec.
    unfold find_next_data.
    destruct (find _ _) as [b|].
    + destruct Hfind as (Hb & Hmb & Hlow). exists b.
      split; [done|]. apply data_at_true in Hmb.
      assert (b <= a).
      { destruct (decide (b <= a)); [done|].
        assert (data_at bv pattern a = false) as Hna by (apply Hlow; lia).
        by apply data_at_false in Hna. }
      split; [lia|]. split; [done|].
      intros c Hc. apply (data_at_false bv pattern). apply Hlow. lia.
    + assert (data_at bv pattern a = false) as Hna by (apply Hfind; lia).
      by apply data_at_false in Hna.
  - intros Hnone. unfold rename_functions, locate, get_section_by_name.
    rewrite Hsec. unfold find_next_data.
    destruct (find _ _) as [b|].
    + destruct Hfind as (Hb & Hmb & _). apply data_at_true in Hmb.
      by destruct (Hnone b ltac:(lia)).
    + run_M. by rewrite <- app_assoc.
Qed.

(** [locate_section_then_signature] on a view with the section, on one with
    the signature only, and on one with neither. *)
Lemma locate_section_then_signature_witness :
  (sections one_entry_view !! ".gopclntab" = Some {| sec_start := 0x1000 |}
   /\ locate one_entry_view fresh = (fresh, inr (Some 0x1000)))
  /\ (sections signature_view !! ".gopclntab" = None
      /\ 0 <= 0x1800 < bv_end signature_view
      /\ bv_read signature_view 0x1800 6 = pattern
      /\ exists b,
           locate signature_view fresh = (fresh, inr (Some b))
           /\ 0 <= b <= 0x1800
           /\ bv_read signature_view b 6 = pattern
           /\ forall c, 0 <= c < b -> bv_read signature_view c 6 <> pattern)
  /\ (sections bare_view !! ".gopclntab" = None
      /\ (forall a, 0 <= a < bv_end bare_view -> bv_read bare_view a 6 <> pattern)
      /\ rename_functions bare_view fresh
         = ({| db := db fresh;
               log := log fresh ++ [Info_renaming_functions;
                                    Alert_section_not_found] |},
            inr tt)).
Proof.
  split; [|split].
  - split; [reflexivity|].
    apply (proj1 (proj2 (locate_section_then_signature one_entry_view fresh))
             {| sec_start := 0x1000 |}).
    reflexivity.
  - assert (Hin : 0 <= 0x1800 < bv_end signature_view)
      by (change (bv_end signature_view) with 0x3000; lia).
    split; [reflexivity|]. split; [exact Hin|]. split; [reflexivity|].
    apply (proj1 (proj2 (proj2 (locate_section_then_signature
                                  signature_view fresh))
                    eq_refl));
      [exact Hin | reflexivity].
  - assert (Hnone : forall a, 0 <= a < bv_end bare_view ->
                      bv_read bare_view a 6 <> pattern).
    { intros a Ha. apply (data_at_false bare_view pattern).
      pose proof (find_range_from (data_at bare_view pattern) 0
                    (Z.to_nat (bv_end bare_view - 0))) as Hfind.
      assert (find (data_at bare_view pattern)
                (Py.range_from 0 1 (Z.to_nat (bv_end bare_view - 0))) = None)
        as E by (vm_compute; reflexivity).
      rewrite E in Hfind. apply Hfind. lia. }
    split; [reflexivity|]. split; [exact Hnone|].
    apply (proj2 (proj2 (proj2 (locate_section_then_signature
                                  bare_view fresh))
                    eq_refl)).
    exact Hnone.
Defined.

(** What the two readers return, by width and by the bytes read. *)
Lemma get_pointer_at_unsupported bv a size st :
  size <> 4 -> size <> 8 ->
  get_pointer_at bv a (Some size) st = (st, inl (ValueError_unsupported_ptr_size size)).
Proof. intros. unfold get_pointer_at. by repeat case_decide. Qed.

Lemma get_pointer_at_width bv a st (width : nat) :
  width = 4%nat \/ width = 8%nat ->
  get_pointer_at bv a (Some (Z.of_nat width)) st
    = (st, inr (if decide (length (bv_read bv a (Z.of_nat width)) = width)
                then Some (le_decode (bv_read bv a (Z.of_nat width)))
                else None)).
Proof.
  unfold get_pointer_at, br_read, bv_read.
  intros [-> | ->]; simpl; done.
Qed.

Lemma get_pointer_at_virt_by_length bv a st :
  get_pointer_at_virt bv a st
    = let x := bv_read bv a (ptr_size bv) in
      if decide (length x = 8%nat \/ length x = 4%nat)
      then (st, inr (le_decode x))
      else (st, inl (ValueError_invalid_size (length x))).
Proof.
  unfold get_pointer_at_virt. simpl.
  repeat case_decide; try done; tauto.
Qed.

(** C7 (the code departs from it): in a view with 8-byte pointers of which
    only four bytes at [0x1000] can be read, [get_pointer_at_virt] asks for
    eight bytes, gets four and returns them decoded as a 32-bit value,
    where [get_pointer_at] reports the failed read. *)
Theorem short_read_decoded_at_four_bytes :
  ptr_size short_read_view = 8
  /\ bv_read short_read_view 0x1000 (ptr_size short_read_view)
     = [Byte.x78; Byte.x56; Byte.x34; Byte.x12]
  /\ get_pointer_at_virt short_read_view 0x1000 fresh = (fresh, inr 0x12345678)
  /\ get_pointer_at short_read_view 0x1000 None fresh = (fresh, inr None).
Proof. vm_compute. repeat split. Qed.

(** ** The callers of [go.runtime.newproc] *)

Lemma for_each_db {A B} (body : A -> B -> M B) (l : list A) acc st :
  (forall x acc st, db (body x acc st).1 = db st) ->
  db (for_each l acc body st).1 = db st.
Proof.
  intros Hbody. revert acc st. induction l as [|x t IH]; intros acc st; [done|].
  simpl. unfold mbind, M_bind.
  pose proof (Hbody x acc st) as Hx.
  destruct (body x acc st) as [st' [e|acc']]; [done|].
  by rewrite IH.
Qed.

Lemma look_back_db bv fn addr attempts j inst st :
  db (look_back bv fn addr attempts j inst st).1 = db st.
Proof.
  revert j. induction attempts as [|k IH]; intros j; [done|]. simpl.
  destruct (low_level_il bv fn _); [done|apply IH].
Qed.

Lemma collect_params_db bv fn addr need j inst params st :
  db (collect_params bv fn addr need j inst params st).1 = db st.
Proof.
  revert j inst params st.
  induction need as [|k IH]; intros j inst params st; [done|].
  cbn [collect_params]. unfold mbind, M_bind.
  pose proof (look_back_db bv fn addr 6 j inst st) as Hl.
  destruct (look_back bv fn addr 6 j inst st) as [st' [e|[j' [i|]]]];
    cbn [fst snd] in *; try done.
  by rewrite IH.
Qed.

(** [skip] starts out true and is only ever set to true. *)
Lemma skip_after_true params : skip_after params = true.
Proof.
  unfold skip_after. induction params as [|i t IH]; [done|]. simpl.
  by destruct (decide _).
Qed.

(** No site changes the database: the loop over [params] leaves [skip]
    true, and the site is left at line 188. *)
Lemma rename_site_db bv addr locals st :
  db (rename_site bv addr locals st).1 = db st.
Proof.
  unfold rename_site. destruct locals as [renamed inst].
  unfold mbind, M_bind, emit. cbn [fst snd].
  destruct (get_function_around bv addr) as [fn|]; [|done].
  destruct (low_level_il bv fn addr) as [callinst|]; [|done].
  case_decide; [done|].
  pose proof (collect_params_db bv fn addr 2 1 inst []
                {| db := db st; log := log st ++ [Info_found_xref addr] |}) as Hc.
  destruct (collect_params _ _ _ _ _ _ _ _) as [st' [e|[params inst']]];
    cbn [fst snd] in *; [done|].
  by rewrite skip_after_true.
Qed.

Lemma rename_db bv st : db (rename bv st).1 = db st.
Proof.
  unfold rename. run_M.
  destruct (get_symbol_by_raw_name _ _) as [newprocfn|]; [|done].
  pose proof (for_each_db (rename_site bv)
                (get_code_refs bv (sym_address newprocfn)) (0, None) st
                (rename_site_db bv)) as Hf.
  by destruct (for_each _ _ _ _) as [st' [e|[renamed inst]]]; simpl in *.
Qed.

(** C5 (the code departs from it): the reference at [0x400010] is a call,
    the two instructions collected behind it are pushes, the second pushes
    the constant [0x500000], which holds the address of the function
    [go.main.worker], and no symbol is at [0x500000].  The run returns
    with nothing renamed: no data variable and no symbol is defined. *)
Theorem newproc_site_defines_nothing :
  get_symbol_by_raw_name (db newproc_state) "go.runtime.newproc"
    = Some (mkSymbol FunctionSymbol 0x400200
              "go.runtime.newproc" "go.runtime.newproc")
  /\ get_code_refs newproc_view 0x400200 = [0x400010]
  /\ get_function_around newproc_view 0x400010 = Some 0x400000
  /\ low_level_il newproc_view 0x400000 0x400010 = Some call_newproc
  /\ (collect_params newproc_view 0x400000 0x400010 2 1 None [] newproc_state).2
     = inr ([push_size; push_fptr], Some push_fptr)
  /\ get_symbol_at (db newproc_state) 0x500000 = None
  /\ get_pointer_at_virt newproc_view 0x500000 newproc_state
     = (newproc_state, inr 0x400100)
  /\ get_function_at (db newproc_state) 0x400100 = Some 0x400100
  /\ rename newproc_view newproc_state
     = ({| db := db newproc_state;
           log := [Info_found_xref 0x400010;
                   Debug_instruction 5 push_size;
                   Debug_instruction 10 push_fptr;
                   Info_renamed_fptrs 0] |},
        inr tt).
Proof. vm_compute. repeat split. Qed.

(** * Further properties *)

(** ** The sanitizers, again *)

Lemma str_remove_forall c s :
  str_forall (fun a => negb (Ascii.eqb a c)) (Py.str_remove c s) = true.
Proof.
  induction s as [|a t IH]; [done|]. simpl.
  destruct (Ascii.eqb a c) eqn:E; [done|]. simpl. by rewrite E.
Qed.

Lemma str_remove_length c s :
  (String.length (Py.str_remove c s) <= String.length s)%nat.
Proof.
  induction s as [|a t IH]; [done|]. simpl.
  destruct (Ascii.eqb a c); simpl; lia.
Qed.

Lemma str_remove_id c s :
  Py.str_remove c s = s <-> str_forall (fun a => negb (Ascii.eqb a c)) s = true.
Proof.
  split.
  - intros H. rewrite <- H. apply str_remove_forall.
  - induction s as [|a t IH]; [done|]. simpl.
    destruct (Ascii.eqb a c); simpl; [done|]. intros H. by rewrite IH.
Qed.

(** X1: [santize_gofunc_name] leaves no space in its result, and the
    strings it returns unchanged are exactly those without a space. *)
Theorem santize_gofunc_name_spaces s :
  str_forall not_space (santize_gofunc_name s) = true
  /\ (santize_gofunc_name s = s <-> str_forall not_space s = true).
Proof. split; [apply str_remove_forall|apply str_remove_id]. Qed.

(** X2: [santize_gofunc_name] works piece by piece: the sanitized
    concatenation is the concatenation of the sanitized parts. *)
Theorem santize_gofunc_name_app a b :
  santize_gofunc_name (a ++ b) = santize_gofunc_name a ++ santize_gofunc_name b.
Proof.
  unfold santize_gofunc_name. induction a as [|c t IH]; [done|]. simpl.
  destruct (Ascii.eqb c " "); [done|]. simpl. by rewrite IH.
Qed.

Lemma collapse_runs_var_chars b s :
  str_forall var_char (collapse_runs b s) = true.
Proof.
  revert b. induction s as [|c t IH]; intros b; [done|]. simpl.
  destruct (name_char c) eqn:E.
  - simpl. unfold var_char at 1. by rewrite E, IH.
  - destruct b; [apply IH|]. simpl. by rewrite IH.
Qed.

Lemma run_ends_not_underscore s :
  run_ends s ->
  match s with String b _ => Ascii.eqb b underscore | EmptyString => false end = false.
Proof. destruct s as [|b t]; [done|]. simpl. apply name_char_not_underscore. Qed.

Lemma collapse_runs_single b s :
  single_underscores (collapse_runs b s) = true.
Proof.
  revert b. induction s as [|c t IH]; intros b; [done|]. simpl.
  destruct (name_char c) eqn:E.
  - simpl. by rewrite (name_char_not_underscore c E), IH.
  - destruct b; [apply IH|]. simpl.
    by rewrite (run_ends_not_underscore _ (collapse_runs_true_ends t)), IH.
Qed.

(** X3: the result of [sanitize_var_name] is made of letters, digits, dots
    and underscores only, and no two of its underscores are adjacent. *)
Theorem sanitize_var_name_alphabet s :
  str_forall var_char (sanitize_var_name s) = true
  /\ single_underscores (sanitize_var_name s) = true.
Proof.
  rewrite sanitize_var_name_collapse.
  split; [apply collapse_runs_var_chars|apply collapse_runs_single].
Qed.

Lemma collapse_runs_clean s :
  str_forall var_char s = true -> single_underscores s = true ->
  collapse_runs false s = s.
Proof.
  induction s as [|c t IH]; [done|]. simpl.
  intros [Hc Ht]%andb_prop [Hu Hs]%andb_prop.
  specialize (IH Ht Hs).
  destruct (name_char c) eqn:E; [by rewrite IH|].
  unfold var_char in Hc. rewrite E in Hc. simpl in Hc.
  apply Ascii.eqb_eq in Hc as ->. f_equal.
  rewrite <- IH at 2. apply collapse_runs_ends.
  destruct t as [|b t']; [done|]. simpl in *.
  apply andb_prop in Ht as [Hb _].
  unfold var_char in Hb. destruct (name_char b); [done|].
  simpl in Hb. by rewrite Hb in Hu.
Qed.

(** X4: the strings [sanitize_var_name] returns unchanged are exactly
    those made of letters, digits, dots and underscores in which no two
    underscores are adjacent. *)
Theorem sanitize_var_name_fixed_points s :
  sanitize_var_name s = s
  <-> str_forall var_char s = true /\ single_underscores s = true.
Proof.
  rewrite sanitize_var_name_collapse. split.
  - intros H. rewrite <- H.
    split; [apply collapse_runs_var_chars|apply collapse_runs_single].
  - intros [H1 H2]. by apply collapse_runs_clean.
Qed.

Lemma collapse_runs_length b s :
  (String.length (collapse_runs b s) <= String.length s)%nat.
Proof.
  revert b. induction s as [|c t IH]; intros b; [done|]. simpl.
  destruct (name_char c); simpl; [specialize (IH false); lia|].
  destruct b; simpl; specialize (IH true); lia.
Qed.

(** X5: neither sanitizer makes a name longer.  [sanitize_var_name] turns
    only the empty string into the empty string, whereas
    [santize_gofunc_name] empties exactly the strings made of spaces. *)
Theorem sanitizers_length s :
  (String.length (santize_gofunc_name s) <= String.length s)%nat
  /\ (String.length (sanitize_var_name s) <= String.length s)%nat
  /\ (sanitize_var_name s = "" <-> s = "")
  /\ (santize_gofunc_name s = ""
      <-> str_forall (fun c => Ascii.eqb c " ") s = true).
Proof.
  split; [apply str_remove_length|].
  rewrite sanitize_var_name_collapse.
  split; [apply collapse_runs_length|]. split.
  - split; [|by intros ->].
    destruct s as [|c t]; [done|]. simpl. by destruct (name_char c).
  - unfold santize_gofunc_name. induction s as [|c t IH]; [done|]. simpl.
    destruct (Ascii.eqb c " "); simpl; [exact IH|]. split; discriminate.
Qed.

(** ** The two pointer readers *)

Lemma le_decode_range bs :
  0 <= le_decode bs < 256 ^ Z.of_nat (length bs).
Proof.
  induction bs as [|b t IH]; [simpl; lia|].
  cbn [le_decode length]. rewrite Nat2Z.inj_succ, Z.pow_succ_r by lia.
  pose proof (Byte.to_N_bounded b). lia.
Qed.

Lemma read_from_length m a n : (length (read_from m a n) <= n)%nat.
Proof.
  revert a. induction n as [|n IH]; intros a; [done|]. simpl.
  destruct (m a); simpl; [specialize (IH (a + 1)); lia|lia].
Qed.

(** X6: a pointer that is read is an unsigned value of the width read:
    [get_pointer_at] with the session's width returns a value below
    [2 ^ (8 * ptr_size)], and [get_pointer_at_virt] a value below [2 ^ 64]. *)
Theorem pointer_in_range bv a st v :
  ((get_pointer_at bv a None st).2 = inr (Some v) ->
   0 <= v < 2 ^ (8 * ptr_size bv))
  /\ ((get_pointer_at_virt bv a st).2 = inr v -> 0 <= v < 2 ^ 64).
Proof.
  split.
  - unfold get_pointer_at, br_read.
    repeat case_decide; simpl; try done; intros [= <-];
      match goal with
      | H : ptr_size bv = _ |- _ => rewrite H
      end;
      match goal with
      | H : length ?x = _ |- context [le_decode ?x] =>
          pose proof (le_decode_range x) as Hr; rewrite H in Hr
      end; exact Hr.
  - unfold get_pointer_at_virt.
    repeat case_decide; simpl; try done; intros [= <-];
      match goal with
      | H : length ?x = _ |- context [le_decode ?x] =>
          pose proof (le_decode_range x) as Hr; rewrite H in Hr
      end; simpl in Hr; lia.
Qed.

(** [pointer_in_range] on the size field of the one-entry table. *)
Lemma pointer_in_range_witness :
  ((get_pointer_at one_entry_view 0x1008 None fresh).2 = inr (Some 16)
   /\ 0 <= 16 < 2 ^ (8 * ptr_size one_entry_view))
  /\ ((get_pointer_at_virt one_entry_view 0x1008 fresh).2 = inr 16
      /\ 0 <= 16 < 2 ^ 64).
Proof.
  split; (split; [reflexivity|]).
  - apply (proj1 (pointer_in_range one_entry_view 0x1008 fresh 16)).
    reflexivity.
  - apply (proj2 (pointer_in_range one_entry_view 0x1008 fresh 16)).
    reflexivity.
Defined.

(** X7: the two readers agree on what can be read in full: whenever
    [get_pointer_at] returns a pointer of the session's width,
    [get_pointer_at_virt] returns the same value at that address. *)
Theorem readers_agree bv a st v :
  (get_pointer_at bv a None st).2 = inr (Some v) ->
  get_pointer_at_virt bv a st = (st, inr v).
Proof.
  unfold get_pointer_at, get_pointer_at_virt, br_read, bv_read.
  destruct (decide (ptr_size bv = 8)) as [E|_];
    [|destruct (decide (ptr_size bv = 4)) as [E|_]; [|done]]; rewrite E.
  - change (Z.to_nat 8) with 8%nat. cbn [snd mret M_ret].
    destruct (decide (length (read_from (mem bv) a 8) = 8%nat)); [|done].
    intros H.
    assert (le_decode (read_from (mem bv) a 8) = v) as <- by congruence.
    done.
  - change (Z.to_nat 4) with 4%nat. cbn [snd mret M_ret].
    destruct (decide (length (read_from (mem bv) a 4) = 4%nat)) as [Hl|]; [|done].
    intros H.
    assert (le_decode (read_from (mem bv) a 4) = v) as <- by congruence.
    rewrite Hl. done.
Qed.

(** [readers_agree] on the first entry of the one-entry table. *)
Lemma readers_agree_witness :
  (get_pointer_at one_entry_view 0x1010 None fresh).2 = inr (Some 0x2000)
  /\ get_pointer_at_virt one_entry_view 0x1010 fresh = (fresh, inr 0x2000).
Proof.
  split; [reflexivity|].
  apply (readers_agree one_entry_view 0x1010 fresh 0x2000). reflexivity.
Defined.

(** X8: at an address that is not mapped the readers fail in different
    ways: [get_pointer_at_virt] raises the invalid-size error for zero
    bytes, whatever the pointer width, while [get_pointer_at] raises
    nothing and returns [None]. *)
Theorem unmapped_pointer bv a st :
  mem bv a = None ->
  get_pointer_at_virt bv a st = (st, inl (ValueError_invalid_size 0))
  /\ (ptr_size bv = 4 \/ ptr_size bv = 8 ->
      get_pointer_at bv a None st = (st, inr None)).
Proof.
  intros Hm. split.
  - unfold get_pointer_at_virt, bv_read.
    destruct (Z.to_nat (ptr_size bv)); simpl; [done|]. by rewrite Hm.
  - unfold get_pointer_at, br_read.
    intros [-> | ->]; simpl; by rewrite Hm.
Qed.

(** [unmapped_pointer] on the hole of the table with the unreadable entry. *)
Lemma unmapped_pointer_witness :
  mem hole_view 0x1010 = None
  /\ get_pointer_at_virt hole_view 0x1010 fresh
     = (fresh, inl (ValueError_invalid_size 0))
  /\ get_pointer_at hole_view 0x1010 None fresh = (fresh, inr None).
Proof.
  split; [reflexivity|].
  destruct (unmapped_pointer hole_view 0x1010 fresh eq_refl) as [Hv Hp].
  split; [exact Hv|]. apply Hp. right. reflexivity.
Defined.

(** ** What a run does to the database *)

Lemma overlay_empty d : overlay ∅ ∅ d = d.
Proof.
  destruct d as [fs syms vars]. unfold overlay. simpl.
  by rewrite !(left_id_L ∅ (∪)).
Qed.

Lemma overlay_overlay fs2 syms2 fs1 syms1 d :
  overlay fs2 syms2 (overlay fs1 syms1 d) = overlay (fs2 ∪ fs1) (syms2 ∪ syms1) d.
Proof. unfold overlay. simpl. by rewrite !(assoc_L (∪)). Qed.

Lemma ensure_function_overlay f d : ensure_function f d = overlay {[ f ]} ∅ d.
Proof.
  destruct d as [fs syms vars]. unfold overlay, ensure_function, get_function_at,
    create_user_function. simpl. rewrite (left_id_L ∅ (∪)).
  case_decide; [|done]. f_equal.
  symmetry. by apply subseteq_union_1_L, singleton_subseteq_l.
Qed.

Lemma define_user_symbol_overlay sym d :
  define_user_symbol sym d = overlay ∅ {[ sym_address sym := sym ]} d.
Proof.
  unfold overlay, define_user_symbol. simpl.
  by rewrite (left_id_L ∅ (∪)), insert_union_singleton_l.
Qed.

Lemma go_symbols_empty fs : go_symbols fs ∅.
Proof. intros a sym H. by rewrite lookup_empty in H. Qed.

Lemma go_symbols_union fs2 syms2 fs1 syms1 :
  go_symbols fs2 syms2 -> go_symbols fs1 syms1 ->
  go_symbols (fs2 ∪ fs1) (syms2 ∪ syms1).
Proof.
  intros H2 H1 a sym [H | [_ H]]%lookup_union_Some_raw.
  - destruct (H2 a sym H). split; [by apply elem_of_union_l|done].
  - destruct (H1 a sym H). split; [by apply elem_of_union_r|done].
Qed.

Lemma map_size_union_le (m1 m2 : gmap Z Symbol) :
  (size (m1 ∪ m2) <= size m1 + size m2)%nat.
Proof.
  rewrite <- (size_dom (D:=gset Z) (m1 ∪ m2)), <- (size_dom (D:=gset Z) m1),
    <- (size_dom (D:=gset Z) m2), dom_union_L, size_union_alt.
  assert (size (dom m2 ∖ dom m1) <= size (dom m2))%nat; [|lia].
  apply subseteq_size, subseteq_difference_l. done.
Qed.

(** One entry adds a fixed set of functions and lays a fixed map of
    symbols over the database, whatever the database holds. *)
Lemma rename_entry_effect bv base_addr addr :
  ptr_size bv = 4 \/ ptr_size bv = 8 ->
  exists fs syms k e,
    go_symbols fs syms
    /\ Z.of_nat (size syms) <= k <= 1
    /\ forall renamed st,
         db (rename_entry bv base_addr addr renamed st).1 = overlay fs syms (db st)
         /\ (rename_entry bv base_addr addr renamed st).2 = counted e k renamed.
Proof.
  intros Hp.
  destruct (entry_fields bv base_addr addr) as [[[f eo] na]|] eqn:Hf.
  - destruct (get_ascii_string_at bv na) as [name|] eqn:Hname.
    + destruct (decide (name = "")) as [->|Hne].
      * exists ∅, ∅, 0, None. split; [apply go_symbols_empty|].
        split; [rewrite map_size_empty; lia|]. intros renamed st.
        rewrite (rename_entry_resolved _ _ _ _ _ _ _ _ Hp Hf), Hname. simpl.
        by rewrite overlay_empty, Z.add_0_r.
      * destruct (decide (2 < String.length name)%nat) as [Hlen|Hlen].
        -- set (name' := GOFUNC_PREFIX ++ santize_gofunc_name name).
           exists {[ f ]}, {[ f := mkSymbol FunctionSymbol f name' name' ]}, 1, None.
           split.
           { intros a sym [<- <-]%lookup_singleton_Some.
             split; [by apply elem_of_singleton|]. by exists name. }
           split; [rewrite map_size_singleton; lia|]. intros renamed st.
           rewrite (rename_entry_resolved _ _ _ _ _ _ _ _ Hp Hf), Hname.
           destruct name as [|c name]; [done|].
           rewrite decide_True by done. simpl.
           rewrite define_user_symbol_overlay, ensure_function_overlay,
             overlay_overlay. simpl.
           by rewrite (left_id_L ∅ (∪)), (right_id_L ∅ (∪)).
        -- exists {[ f ]}, ∅, 0, None. split; [apply go_symbols_empty|].
           split; [rewrite map_size_empty; lia|]. intros renamed st.
           rewrite (rename_entry_resolved _ _ _ _ _ _ _ _ Hp Hf), Hname.
           destruct name as [|c name]; [done|].
           rewrite decide_False by done. simpl.
           by rewrite ensure_function_overlay, Z.add_0_r.
    + exists ∅, ∅, 0, None. split; [apply go_symbols_empty|].
      split; [rewrite map_size_empty; lia|]. intros renamed st.
      rewrite (rename_entry_resolved _ _ _ _ _ _ _ _ Hp Hf), Hname. simpl.
      by rewrite overlay_empty, Z.add_0_r.
  - exists ∅, ∅, 0, (Some TypeError). split; [apply go_symbols_empty|].
    split; [rewrite map_size_empty; lia|]. intros renamed st.
    destruct (rename_entry_unreadable _ _ _ renamed st Hp Hf) as (rs & -> & _).
    simpl. by rewrite overlay_empty.
Qed.

(** So does the loop over the entries. *)
Lemma for_each_effect bv base_addr addrs :
  ptr_size bv = 4 \/ ptr_size bv = 8 ->
  exists fs syms k e,
    go_symbols fs syms
    /\ Z.of_nat (size syms) <= k <= Z.of_nat (length addrs)
    /\ forall renamed st,
         db (for_each addrs renamed (rename_entry bv base_addr) st).1
           = overlay fs syms (db st)
         /\ (for_each addrs renamed (rename_entry bv base_addr) st).2
            = counted e k renamed.
Proof.
  intros Hp. induction addrs as [|addr rest IH].
  - exists ∅, ∅, 0, None. split; [apply go_symbols_empty|].
    split; [rewrite map_size_empty; simpl; lia|]. intros renamed st. simpl.
    by rewrite overlay_empty, Z.add_0_r.
  - destruct (rename_entry_effect bv base_addr addr Hp)
      as (fs1 & syms1 & k1 & e1 & Hgo1 & Hk1 & H1).
    destruct e1 as [x|].
    + exists fs1, syms1, k1, (Some x). split; [done|].
      split; [simpl length; lia|]. intros renamed st.
      cbn [for_each]. unfold mbind, M_bind.
      destruct (H1 renamed st) as [Hdb Hres].
      destruct (rename_entry bv base_addr addr renamed st) as [st' r].
      simpl in *. by subst r.
    + destruct IH as (fs2 & syms2 & k2 & e2 & Hgo2 & Hk2 & H2).
      exists (fs2 ∪ fs1), (syms2 ∪ syms1), (k1 + k2), e2.
      split; [by apply go_symbols_union|].
      split.
      { pose proof (map_size_union_le syms2 syms1). simpl length. lia. }
      intros renamed st. cbn [for_each]. unfold mbind, M_bind.
      destruct (H1 renamed st) as [Hdb Hres].
      destruct (rename_entry bv base_addr addr renamed st) as [st' r].
      simpl in Hdb, Hres. subst r.
      destruct (H2 (renamed + k1) st') as [Hdb2 Hres2].
      rewrite Hdb2, Hres2, Hdb, overlay_overlay. split; [done|].
      destruct e2; simpl; [done|]. f_equal. lia.
Qed.

(** The search for the table returns the same for every state, and logs
    only when it finds nothing. *)
Lemma locate_fixed bv :
  (exists base_addr, forall st, locate bv st = (st, inr (Some base_addr)))
  \/ (forall st, locate bv st = (logged [Alert_section_not_found] st, inr None)).
Proof.
  unfold locate. destruct (get_section_by_name bv _) as [sec|]; [by left; eexists|].
  destruct (find_next_data bv 0 pattern) as [b|]; [by left; eexists|by right].
Qed.

(** The runs that end before the loop. *)
Lemma rename_functions_no_table bv st :
  (locate bv (logged [Info_renaming_functions] st)).2 = inr None ->
  rename_functions bv st
    = (logged [Info_renaming_functions; Alert_section_not_found] st, inr tt).
Proof.
  intros Hloc. unfold rename_functions.
  unfold mbind at 1, M_bind at 1. simpl.
  unfold mbind at 1, M_bind at 1.
  destruct (locate_fixed bv) as [[b Hb] | Hnone].
  - unfold logged in Hloc. simpl in Hloc. by rewrite Hb in Hloc.
  - rewrite Hnone. unfold logged. simpl. by rewrite <- app_assoc.
Qed.

Lemma rename_functions_bad_width bv st base_addr :
  (locate bv st).2 = inr (Some base_addr) ->
  ptr_size bv <> 4 -> ptr_size bv <> 8 ->
  rename_functions bv st
    = (logged [Info_renaming_functions] st,
       inl (ValueError_unsupported_ptr_size (ptr_size bv))).
Proof.
  intros Hloc H4 H8. unfold rename_functions.
  unfold mbind at 1, M_bind at 1. simpl.
  unfold mbind at 1, M_bind at 1.
  rewrite (locate_found _ _ _ Hloc).
  unfold get_pointer_at.
  rewrite decide_False by done. rewrite decide_False by done.
  by run_M.
Qed.

Lemma rename_functions_no_size bv st base_addr :
  ptr_size bv = 4 \/ ptr_size bv = 8 ->
  (locate bv st).2 = inr (Some base_addr) ->
  br_read bv (base_addr + 8) (Z.to_nat (ptr_size bv)) = None ->
  rename_functions bv st = (logged [Info_renaming_functions] st, inl TypeError).
Proof.
  intros Hp Hloc Hsize. unfold rename_functions.
  unfold mbind at 1, M_bind at 1. simpl.
  unfold mbind at 1, M_bind at 1.
  rewrite (locate_found _ _ _ Hloc).
  rewrite (get_pointer_at_default _ _ Hp), Hsize. by run_M.
Qed.

(** And so does the whole run: its outcome and what it adds are fixed by
    the view. *)
Lemma rename_functions_effect bv :
  exists fs syms r,
    go_symbols fs syms
    /\ forall st,
         db (rename_functions bv st).1 = overlay fs syms (db st)
         /\ (rename_functions bv st).2 = r.
Proof.
  destruct (locate_fixed bv) as [[base_addr Hloc] | Hloc].
  - assert (Hl : forall st, (locate bv st).2 = inr (Some base_addr))
      by (intros st; by rewrite Hloc).
    destruct (decide (ptr_size bv = 4 \/ ptr_size bv = 8)) as [Hp|Hp].
    + destruct (br_read bv (base_addr + 8) (Z.to_nat (ptr_size bv)))
        as [size|] eqn:Hsize.
      * assert (Hstep : 0 < 2 * ptr_size bv) by lia.
        destruct (range_lookup (base_addr + 8 + ptr_size bv)
                    (base_addr + size * ptr_size bv * 2) _ 0 Hstep)
          as (addrs & Hrange & _).
        destruct (for_each_effect bv base_addr addrs Hp)
          as (fs & syms & k & e & Hgo & _ & H).
        exists fs, syms, (match e with Some x => inl x | None => inr tt end).
        split; [done|]. intros st.
        rewrite (rename_functions_found _ _ _ _ addrs Hp (Hl st) Hsize Hrange).
        cbn zeta.
        destruct (H 0 (logged [Info_renaming_functions;
                               Info_found_gopclntab base_addr
                                 (size / (ptr_size bv * 2))] st))
          as [Hdb Hres].
        rewrite Hres. by destruct e.
      * exists ∅, ∅, (inl TypeError). split; [apply go_symbols_empty|].
        intros st. rewrite (rename_functions_no_size _ _ _ Hp (Hl st) Hsize).
        simpl. by rewrite overlay_empty.
    + exists ∅, ∅, (inl (ValueError_unsupported_ptr_size (ptr_size bv))).
      split; [apply go_symbols_empty|].
      intros st. rewrite (rename_functions_bad_width _ _ _ (Hl st)) by tauto.
      simpl. by rewrite overlay_empty.
  - exists ∅, ∅, (inr tt). split; [apply go_symbols_empty|].
    intros st. rewrite rename_functions_no_table by (by rewrite Hloc).
    simpl. by rewrite overlay_empty.
Qed.

Lemma go_symbol_shape a sym :
  go_symbol a sym ->
  sym_type sym = FunctionSymbol
  /\ sym_address sym = a
  /\ exists rest,
       full_name sym = GOFUNC_PREFIX ++ rest
       /\ str_forall not_space rest = true.
Proof.
  intros (name & _ & ->). split; [done|]. split; [done|].
  exists (santize_gofunc_name name). split; [done|apply str_remove_forall].
Qed.

(** X9: a run of [rename_functions], however it ends, leaves the data
    variables alone and removes no function; and every symbol that is not
    the one from before is a function symbol at the address of a function,
    named [go.] followed by a name without spaces. *)
Theorem rename_functions_frame bv st :
  let st' := (rename_functions bv st).1 in
  data_vars (db st') = data_vars (db st)
  /\ functions (db st) ⊆ functions (db st')
  /\ forall a,
       symbols (db st') !! a = symbols (db st) !! a
       \/ exists sym,
            symbols (db st') !! a = Some sym
            /\ a ∈ functions (db st')
            /\ sym_type sym = FunctionSymbol
            /\ sym_address sym = a
            /\ exists rest,
                 full_name sym = GOFUNC_PREFIX ++ rest
                 /\ str_forall not_space rest = true.
Proof.
  destruct (rename_functions_effect bv) as (fs & syms & r & Hgo & H).
  destruct (H st) as [Hdb _]. cbn zeta. rewrite Hdb. simpl.
  split; [done|]. split; [apply union_subseteq_r|].
  intros a. destruct (syms !! a) as [sym|] eqn:Ha.
  - right. exists sym. destruct (Hgo a sym Ha) as [Hin Hsym].
    split; [by apply lookup_union_Some_l|].
    split; [by apply elem_of_union_l|]. by apply go_symbol_shape.
  - left. by apply lookup_union_r.
Qed.

(** X10: running [rename_functions] a second time changes nothing: the
    database after two runs is the database after one, and the second run
    ends as the first did. *)
Theorem rename_functions_twice bv st :
  let st1 := (rename_functions bv st).1 in
  db (rename_functions bv st1).1 = db st1
  /\ (rename_functions bv st1).2 = (rename_functions bv st).2.
Proof.
  destruct (rename_functions_effect bv) as (fs & syms & r & _ & H).
  cbn zeta. destruct (H st) as [Hdb Hres].
  destruct (H (rename_functions bv st).1) as [Hdb' Hres'].
  rewrite Hdb', Hres', Hres, Hdb, overlay_overlay. split; [|done].
  by rewrite (idemp_L (∪) fs), (idemp_L (∪) syms).
Qed.

(** X11: what a run does is fixed by the view and not by the database it
    starts from: from any two states it ends the same way, and where it
    changes the symbol of an address from one state it leaves that same
    symbol from the other. *)
Theorem rename_functions_effect_fixed bv st1 st2 :
  (rename_functions bv st1).2 = (rename_functions bv st2).2
  /\ forall a,
       symbols (db (rename_functions bv st1).1) !! a <> symbols (db st1) !! a ->
       symbols (db (rename_functions bv st2).1) !! a
         = symbols (db (rename_functions bv st1).1) !! a.
Proof.
  destruct (rename_functions_effect bv) as (fs & syms & r & _ & H).
  destruct (H st1) as [Hdb1 Hres1]. destruct (H st2) as [Hdb2 Hres2].
  split; [by rewrite Hres1, Hres2|].
  intros a. rewrite Hdb1, Hdb2. simpl.
  destruct (syms !! a) as [sym|] eqn:Ha.
  - intros _. by rewrite !(lookup_union_Some_l _ _ _ _ Ha).
  - rewrite (lookup_union_r syms (symbols (db st1))) by done. done.
Qed.

(** [rename_functions_effect_fixed] on the one-entry table, from the empty
    database and from the database of the sample caller. *)
Lemma rename_functions_effect_fixed_witness :
  symbols (db (rename_functions one_entry_view fresh).1) !! 0x2000
    <> symbols (db fresh) !! 0x2000
  /\ symbols (db (rename_functions one_entry_view newproc_state).1) !! 0x2000
     = symbols (db (rename_functions one_entry_view fresh).1) !! 0x2000.
Proof.
  assert (symbols (db (rename_functions one_entry_view fresh).1) !! 0x2000
          <> symbols (db fresh) !! 0x2000) as Hne
    by (vm_compute; discriminate).
  split; [exact Hne|].
  apply (proj2 (rename_functions_effect_fixed one_entry_view fresh newproc_state)).
  exact Hne.
Defined.

(** X12: when the walk returns, the number it reports is at least the
    number of addresses whose symbol it changed and at most the number of
    entries it ran over. *)
Theorem renamed_count_bounds bv st base_addr raw_size :
  ptr_size bv = 4 \/ ptr_size bv = 8 ->
  (locate bv st).2 = inr (Some base_addr) ->
  br_read bv (base_addr + 8) (Z.to_nat (ptr_size bv)) = Some raw_size ->
  (rename_functions bv st).2 = inr tt ->
  exists addrs n (changed : gset Z),
    entry_range bv base_addr raw_size = Some addrs
    /\ last (log (rename_functions bv st).1) = Some (Info_renamed_functions n)
    /\ (forall a, a ∉ changed ->
          symbols (db (rename_functions bv st).1) !! a = symbols (db st) !! a)
    /\ Z.of_nat (size changed) <= n <= Z.of_nat (length addrs).
Proof.
  intros Hp Hloc Hsize.
  assert (Hstep : 0 < 2 * ptr_size bv) by lia.
  destruct (range_lookup (base_addr + 8 + ptr_size bv)
              (base_addr + raw_size * ptr_size bv * 2) _ 0 Hstep)
    as (addrs & Hrange & _).
  destruct (for_each_effect bv base_addr addrs Hp)
    as (fs & syms & k & e & _ & Hk & H).
  rewrite (rename_functions_found _ _ _ _ addrs Hp Hloc Hsize Hrange).
  cbn zeta.
  destruct (H 0 (logged [Info_renaming_functions;
                         Info_found_gopclntab base_addr
                           (raw_size / (ptr_size bv * 2))] st))
    as [Hdb Hres].
  destruct (for_each addrs 0 _ _) as [st' res]. simpl in Hdb, Hres. subst res.
  destruct e as [x|]; simpl; [done|]. intros _.
  exists addrs, k, (dom syms). split; [done|].
  split; [by rewrite last_snoc|]. split.
  - intros a Ha. rewrite Hdb. simpl. apply lookup_union_r.
    by apply not_elem_of_dom.
  - rewrite (size_dom (D:=gset Z)). lia.
Qed.

(** [renamed_count_bounds] on the one-entry table. *)
Lemma renamed_count_bounds_witness :
  (ptr_size one_entry_view = 4 \/ ptr_size one_entry_view = 8)
  /\ (locate one_entry_view fresh).2 = inr (Some 0x1000)
  /\ br_read one_entry_view (0x1000 + 8) (Z.to_nat (ptr_size one_entry_view))
     = Some 16
  /\ (rename_functions one_entry_view fresh).2 = inr tt
  /\ exists addrs n (changed : gset Z),
       entry_range one_entry_view 0x1000 16 = Some addrs
       /\ last (log (rename_functions one_entry_view fresh).1)
          = Some (Info_renamed_functions n)
       /\ (forall a, a ∉ changed ->
             symbols (db (rename_functions one_entry_view fresh).1) !! a
               = symbols (db fresh) !! a)
       /\ Z.of_nat (size changed) <= n <= Z.of_nat (length addrs).
Proof.
  split; [right; reflexivity|]. split; [reflexivity|]. split; [reflexivity|].
  split; [reflexivity|].
  apply (renamed_count_bounds one_entry_view fresh 0x1000 16);
    [right; reflexivity | reflexivity | reflexivity | reflexivity].
Defined.

(** ** Runs that end before the first entry *)

(** X13: a table whose size field holds 1 or less has no entry to visit:
    the run logs what it found and that it renamed 0 functions, and the
    database is as before. *)
Theorem small_size_visits_nothing bv st base_addr raw_size :
  ptr_size bv = 4 \/ ptr_size bv = 8 ->
  (locate bv st).2 = inr (Some base_addr) ->
  br_read bv (base_addr + 8) (Z.to_nat (ptr_size bv)) = Some raw_size ->
  raw_size <= 1 ->
  rename_functions bv st
    = ({| db := db st;
          log := log st ++ [Info_renaming_functions;
                            Info_found_gopclntab base_addr
                              (raw_size / (ptr_size bv * 2));
                            Info_renamed_functions 0] |},
       inr tt).
Proof.
  intros Hp Hloc Hsize Hsmall.
  assert (Hrange : entry_range bv base_addr raw_size = Some []).
  { unfold entry_range, Py.range, Py.range_len.
    destruct (Z.eqb_spec (2 * ptr_size bv) 0); [lia|].
    destruct (Z.ltb_spec 0 (2 * ptr_size bv)); [|lia].
    destruct (Z.ltb_spec (base_addr + 8 + ptr_size bv)
                (base_addr + raw_size * ptr_size bv * 2)); [nia|done]. }
  rewrite (rename_functions_found _ _ _ _ [] Hp Hloc Hsize Hrange).
  unfold logged. simpl. by rewrite <- app_assoc.
Qed.

(** [small_size_visits_nothing] on a table with the size field 1. *)
Lemma small_size_visits_nothing_witness :
  (ptr_size size_one_view = 4 \/ ptr_size size_one_view = 8)
  /\ (locate size_one_view fresh).2 = inr (Some 0x1000)
  /\ br_read size_one_view (0x1000 + 8) (Z.to_nat (ptr_size size_one_view)) = Some 1
  /\ 1 <= 1
  /\ rename_functions size_one_view fresh
     = ({| db := db fresh;
           log := log fresh ++ [Info_renaming_functions;
                                Info_found_gopclntab 0x1000
                                  (1 / (ptr_size size_one_view * 2));
                                Info_renamed_functions 0] |},
        inr tt).
Proof.
  split; [right; reflexivity|]. split; [reflexivity|]. split; [reflexivity|].
  split; [lia|].
  apply (small_size_visits_nothing size_one_view fresh 0x1000 1);
    [right; reflexivity | reflexivity | reflexivity | lia].
Defined.

(** X14: with a pointer width other than 4 or 8 the run ends at the read
    of the size field, once the table is found: it raises the
    unsupported-width error, having logged its first line only and
    changed nothing. *)
Theorem unsupported_width_ends_run bv st base_addr :
  (locate bv st).2 = inr (Some base_addr) ->
  ptr_size bv <> 4 -> ptr_size bv <> 8 ->
  rename_functions bv st
    = ({| db := db st; log := log st ++ [Info_renaming_functions] |},
       inl (ValueError_unsupported_ptr_size (ptr_size bv))).
Proof. apply rename_functions_bad_width. Qed.

(** [unsupported_width_ends_run] on a view with 2-byte pointers. *)
Lemma unsupported_width_ends_run_witness :
  (locate narrow_view fresh).2 = inr (Some 0x1000)
  /\ ptr_size narrow_view <> 4
  /\ ptr_size narrow_view <> 8
  /\ rename_functions narrow_view fresh
     = ({| db := db fresh; log := log fresh ++ [Info_renaming_functions] |},
        inl (ValueError_unsupported_ptr_size (ptr_size narrow_view))).
Proof.
  split; [reflexivity|]. split; [discriminate|]. split; [discriminate|].
  apply (unsupported_width_ends_run narrow_view fresh 0x1000);
    [reflexivity | discriminate | discriminate].
Defined.

(** X15: when the size field of the table that was found cannot be read,
    the run raises before it logs the table: nothing but its first line is
    logged and nothing is changed. *)
Theorem unreadable_size_ends_run bv st base_addr :
  ptr_size bv = 4 \/ ptr_size bv = 8 ->
  (locate bv st).2 = inr (Some base_addr) ->
  br_read bv (base_addr + 8) (Z.to_nat (ptr_size bv)) = None ->
  rename_functions bv st
    = ({| db := db st; log := log st ++ [Info_renaming_functions] |},
       inl TypeError).
Proof. apply rename_functions_no_size. Qed.

(** [unreadable_size_ends_run] on a view that ends behind the header. *)
Lemma unreadable_size_ends_run_witness :
  (ptr_size header_only_view = 4 \/ ptr_size header_only_view = 8)
  /\ (locate header_only_view fresh).2 = inr (Some 0x1000)
  /\ br_read header_only_view (0x1000 + 8) (Z.to_nat (ptr_size header_only_view))
     = None
  /\ rename_functions header_only_view fresh
     = ({| db := db fresh; log := log fresh ++ [Info_renaming_functions] |},
        inl TypeError).
Proof.
  split; [right; reflexivity|]. split; [reflexivity|]. split; [reflexivity|].
  apply (unreadable_size_ends_run header_only_view fresh 0x1000);
    [right; reflexivity | reflexivity | reflexivity].
Defined.

(** ** The scan of the callers, in general *)

Lemma look_back_none bv fn addr n j inst st :
  (forall k, j < k <= j + Z.of_nat n -> low_level_il bv fn (addr - k) = None) ->
  look_back bv fn addr n j inst st = (st, inr (j + Z.of_nat n, inst)).
Proof.
  revert j. induction n as [|n IH]; intros j Hnone.
  - simpl. by rewrite Z.add_0_r.
  - cbn [look_back]. rewrite (Hnone (j + 1)) by lia.
    rewrite IH by (intros k Hk; apply Hnone; lia).
    do 3 f_equal. lia.
Qed.

Lemma look_back_found bv fn addr n j inst st j' i :
  j < j' <= j + Z.of_nat n ->
  (forall k, j < k < j' -> low_level_il bv fn (addr - k) = None) ->
  low_level_il bv fn (addr - j') = Some i ->
  look_back bv fn addr n j inst st
    = (logged [Debug_instruction j' i] st, inr (j', Some i)).
Proof.
  revert j. induction n as [|n IH]; intros j Hj Hnone Hi; [lia|].
  cbn [look_back]. destruct (decide (j' = j + 1)) as [->|Hne].
  - by rewrite Hi.
  - rewrite (Hnone (j + 1)) by lia.
    apply IH; [lia| |done]. intros k Hk. apply Hnone. lia.
Qed.

Lemma look_back_ext bv bv' fn addr n j inst st :
  (forall k, j < k <= j + Z.of_nat n ->
     low_level_il bv fn (addr - k) = low_level_il bv' fn (addr - k)) ->
  look_back bv fn addr n j inst st = look_back bv' fn addr n j inst st.
Proof.
  revert j. induction n as [|n IH]; intros j Hext; [done|].
  cbn [look_back]. rewrite <- (Hext (j + 1)) by lia.
  destruct (low_level_il bv fn _); [done|].
  apply IH. intros k Hk. apply Hext. lia.
Qed.

Lemma look_back_bound bv fn addr n j inst st :
  exists st' j' inst',
    look_back bv fn addr n j inst st = (st', inr (j', inst'))
    /\ j <= j' <= j + Z.of_nat n.
Proof.
  revert j. induction n as [|n IH]; intros j.
  - exists st, j, inst. split; [done|lia].
  - cbn [look_back]. destruct (low_level_il bv fn _) as [i|].
    + eexists _, (j + 1), (Some i). split; [done|lia].
    + destruct (IH (j + 1)) as (st' & j' & inst' & -> & Hj).
      exists st', j', inst'. split; [done|lia].
Qed.

Lemma collect_params_ext bv bv' fn addr need j inst params st :
  (forall k, j < k <= j + 6 * Z.of_nat need ->
     low_level_il bv fn (addr - k) = low_level_il bv' fn (addr - k)) ->
  collect_params bv fn addr need j inst params st
    = collect_params bv' fn addr need j inst params st.
Proof.
  revert j inst params st.
  induction need as [|need IH]; intros j inst params st Hext; [done|].
  cbn [collect_params]. unfold mbind, M_bind.
  rewrite <- (look_back_ext bv bv') by (intros k Hk; apply Hext; lia).
  destruct (look_back_bound bv fn addr 6 j inst st)
    as (st' & j' & inst' & -> & Hj).
  destruct inst' as [i|]; [|done].
  apply IH. intros k Hk. apply Hext. lia.
Qed.

(** X16: the instructions collected behind a call depend on nothing but
    what is decoded 2 to 13 bytes before it: the byte just before the call
    is never looked at, nor anything further back. *)
Theorem collect_params_window bv bv' fn addr inst st :
  (forall k, 2 <= k <= 13 ->
     low_level_il bv fn (addr - k) = low_level_il bv' fn (addr - k)) ->
  collect_params bv fn addr 2 1 inst [] st
    = collect_params bv' fn addr 2 1 inst [] st.
Proof.
  intros Hext. apply collect_params_ext. intros k Hk. apply Hext. lia.
Qed.

(** [collect_params_window] on the sample caller and the same with an
    instruction one byte and one 14 bytes before the call. *)
Lemma collect_params_window_witness :
  low_level_il newproc_view 0x400000 (0x400010 - 1)
    <> low_level_il crowded_view 0x400000 (0x400010 - 1)
  /\ collect_params newproc_view 0x400000 0x400010 2 1 None [] newproc_state
     = collect_params crowded_view 0x400000 0x400010 2 1 None [] newproc_state.
Proof.
  split; [vm_compute; discriminate|].
  apply (collect_params_window newproc_view crowded_view).
  intros k Hk.
  assert (k = 2 \/ k = 3 \/ k = 4 \/ k = 5 \/ k = 6 \/ k = 7 \/ k = 8
          \/ k = 9 \/ k = 10 \/ k = 11 \/ k = 12 \/ k = 13) as Hcases by lia.
  repeat destruct Hcases as [-> | Hcases]; try subst k; reflexivity.
Defined.

(** X17: when one instruction is found behind the call and the next six
    bytes back hold none, that instruction is collected twice: the two
    parameters are one and the same instruction. *)
Theorem collect_params_repeats bv fn addr inst st j1 i :
  1 < j1 <= 7 ->
  (forall k, 1 < k < j1 -> low_level_il bv fn (addr - k) = None) ->
  low_level_il bv fn (addr - j1) = Some i ->
  (forall k, j1 < k <= j1 + 6 -> low_level_il bv fn (addr - k) = None) ->
  collect_params bv fn addr 2 1 inst [] st
    = (logged [Debug_instruction j1 i] st, inr ([i; i], Some i)).
Proof.
  intros Hj Hbefore Hi Hafter.
  cbn [collect_params]. unfold mbind, M_bind.
  rewrite (look_back_found bv fn addr 6 1 inst st j1 i) by (done || lia).
  rewrite (look_back_none bv fn addr 6 j1 (Some i)) by done.
  done.
Qed.

(** [collect_params_repeats] on the caller with a single push. *)
Lemma collect_params_repeats_witness :
  1 < 2 <= 7
  /\ low_level_il lone_push_view 0x400000 (0x400010 - 2) = Some push_fptr
  /\ collect_params lone_push_view 0x400000 0x400010 2 1 None [] newproc_state
     = (logged [Debug_instruction 2 push_fptr] newproc_state,
        inr ([push_fptr; push_fptr], Some push_fptr)).
Proof.
  split; [lia|]. split; [reflexivity|].
  apply (collect_params_repeats lone_push_view 0x400000 0x400010 None
           newproc_state 2 push_fptr); [lia | lia | reflexivity |].
  intros k Hk.
  assert (k = 3 \/ k = 4 \/ k = 5 \/ k = 6 \/ k = 7 \/ k = 8) as Hcases by lia.
  repeat destruct Hcases as [-> | Hcases]; try subst k; reflexivity.
Defined.

(** X18: when nothing is decoded 2 to 7 bytes before the call, the first
    reference raises [UnboundLocalError], the local [inst] never having
    been assigned; and when nothing is decoded 2 to 13 bytes before it, a
    later reference collects, twice, the instruction left over from an
    earlier one. *)
Theorem collect_params_nothing_found bv fn addr st :
  ((forall k, 2 <= k <= 7 -> low_level_il bv fn (addr - k) = None) ->
   collect_params bv fn addr 2 1 None [] st = (st, inl UnboundLocalError))
  /\ (forall i0,
        (forall k, 2 <= k <= 13 -> low_level_il bv fn (addr - k) = None) ->
        collect_params bv fn addr 2 1 (Some i0) [] st
          = (st, inr ([i0; i0], Some i0))).
Proof.
  split.
  - intros Hnone. cbn [collect_params]. unfold mbind, M_bind.
    by rewrite look_back_none by (intros k Hk; apply Hnone; lia).
  - intros i0 Hnone. cbn [collect_params]. unfold mbind, M_bind.
    rewrite look_back_none by (intros k Hk; apply Hnone; lia). cbn beta iota.
    by rewrite look_back_none by (intros k Hk; apply Hnone; lia).
Qed.

(** [collect_params_nothing_found] on the caller with nothing decoded
    behind the call. *)
Lemma collect_params_nothing_found_witness :
  collect_params bare_call_view 0x400000 0x400010 2 1 None [] newproc_state
    = (newproc_state, inl UnboundLocalError)
  /\ collect_params bare_call_view 0x400000 0x400010 2 1 (Some push_size) []
       newproc_state
     = (newproc_state, inr ([push_size; push_size], Some push_size)).
Proof.
  destruct (collect_params_nothing_found bare_call_view 0x400000 0x400010
              newproc_state) as [H1 H2].
  split.
  - apply H1. intros k Hk.
    assert (k = 2 \/ k = 3 \/ k = 4 \/ k = 5 \/ k = 6 \/ k = 7) as Hcases by lia.
    repeat destruct Hcases as [-> | Hcases]; try subst k; reflexivity.
  - apply H2. intros k Hk.
    assert (k = 2 \/ k = 3 \/ k = 4 \/ k = 5 \/ k = 6 \/ k = 7 \/ k = 8
            \/ k = 9 \/ k = 10 \/ k = 11 \/ k = 12 \/ k = 13) as Hcases by lia.
    repeat destruct Hcases as [-> | Hcases]; try subst k; reflexivity.
Defined.

Lemma rename_site_renamed bv addr renamed inst st r' inst' :
  (rename_site bv addr (renamed, inst) st).2 = inr (r', inst') -> r' = renamed.
Proof.
  unfold rename_site. unfold mbind, M_bind, emit. cbn [fst snd].
  destruct (get_function_around bv addr) as [fn|]; [|done].
  destruct (low_level_il bv fn addr) as [callinst|]; [|done].
  case_decide; [by intros [= <- _]|].
  destruct (collect_params _ _ _ _ _ _ _ _) as [st' [e|[params inst'']]];
    cbn [fst snd]; [done|].
  rewrite skip_after_true. by intros [= <- _].
Qed.

Lemma for_each_rename_site_renamed bv addrs renamed inst st r' inst' :
  (for_each addrs (renamed, inst) (rename_site bv) st).2 = inr (r', inst') ->
  r' = renamed.
Proof.
  revert inst st. induction addrs as [|addr rest IH]; intros inst st.
  - by intros [= <- _].
  - cbn [for_each]. unfold mbind, M_bind.
    pose proof (rename_site_renamed bv addr renamed inst st) as Hs.
    destruct (rename_site bv addr (renamed, inst) st) as [st' [e|[r1 i1]]];
      [done|].
    rewrite (Hs r1 i1 eq_refl). apply IH.
Qed.

(** X19: [NewProcRenamer.rename] never changes the database, in any view
    and from any state, however it ends; and when it returns, the number
    of renamed function pointers it reports is 0. *)
Theorem rename_changes_nothing bv st :
  db (rename bv st).1 = db st
  /\ ((rename bv st).2 = inr tt ->
      last (log (rename bv st).1) = Some (Info_renamed_fptrs 0)).
Proof.
  split; [apply rename_db|].
  unfold rename. unfold mbind, M_bind, get_db. cbn [fst snd].
  destruct (get_symbol_by_raw_name _ _) as [newprocfn|]; [|done].
  pose proof (for_each_rename_site_renamed bv
                (get_code_refs bv (sym_address newprocfn)) 0 None st) as Hf.
  destruct (for_each _ _ _ _) as [st' [e|[renamed inst]]]; [done|].
  rewrite (Hf renamed inst eq_refl). intros _. simpl. apply last_snoc.
Qed.

(** [rename_changes_nothing] on the sample caller. *)
Lemma rename_changes_nothing_witness :
  (rename newproc_view newproc_state).2 = inr tt
  /\ last (log (rename newproc_view newproc_state).1)
     = Some (Info_renamed_fptrs 0).
Proof.
  split; [reflexivity|].
  apply (proj2 (rename_changes_nothing newproc_view newproc_state)).
  reflexivity.
Defined.

Lemma get_symbol_by_raw_name_None d name :
  (forall a sym, symbols d !! a = Some sym -> raw_name sym <> name) ->
  get_symbol_by_raw_name d name = None.
Proof.
  intros Hno. unfold get_symbol_by_raw_name.
  destruct (find _ _) as [[a sym]|] eqn:E; [|done].
  apply find_some in E as [Hin Hname].
  apply list_elem_of_In, elem_of_map_to_list in Hin.
  apply bool_decide_eq_true in Hname. simpl in Hname.
  by destruct (Hno a sym Hin).
Qed.

(** X20: when no symbol of the database has the raw name
    [go.runtime.newproc], [rename] raises [AttributeError] at once: the
    state, log included, is as it was. *)
Theorem rename_without_newproc bv st :
  (forall a sym, symbols (db st) !! a = Some sym ->
     raw_name sym <> "go.runtime.newproc") ->
  rename bv st = (st, inl AttributeError).
Proof.
  intros Hno. unfold rename. unfold mbind, M_bind, get_db.
  by rewrite (get_symbol_by_raw_name_None _ _ Hno).
Qed.

(** [rename_without_newproc] on the empty database. *)
Lemma rename_without_newproc_witness :
  rename newproc_view fresh = (fresh, inl AttributeError).
Proof.
  apply (rename_without_newproc newproc_view fresh).
  intros a sym H. change ((∅ : gmap Z Symbol) !! a = Some sym) in H.
  by rewrite lookup_empty in H.
Defined.

(** X21: a reference that does not decode to a call is passed over, with
    one debug record, and the scan goes on with the next reference; a
    reference that lies in no basic block raises [AttributeError], which
    ends the scan: the references behind it are not looked at. *)
Theorem rename_site_skips_or_raises bv addr rest locals st :
  (forall fn callinst,
     get_function_around bv addr = Some fn ->
     low_level_il bv fn addr = Some callinst ->
     operation callinst <> LLIL_CALL ->
     for_each (addr :: rest) locals (rename_site bv) st
       = for_each rest locals (rename_site bv)
           (logged [Info_found_xref addr; Debug_not_a_call callinst] st))
  /\ (get_function_around bv addr = None ->
      for_each (addr :: rest) locals (rename_site bv) st
        = (logged [Info_found_xref addr] st, inl AttributeError)).
Proof.
  destruct locals as [renamed inst]. split.
  - intros fn callinst Hfn Hcall Hop. cbn [for_each]. unfold mbind, M_bind.
    unfold rename_site. unfold mbind, M_bind, emit. cbn [fst snd].
    rewrite Hfn, Hcall. rewrite decide_True by done.
    unfold logged. simpl. by rewrite <- app_assoc.
  - intros Hfn. cbn [for_each]. unfold mbind, M_bind.
    unfold rename_site. unfold mbind, M_bind, emit. cbn [fst snd].
    by rewrite Hfn.
Qed.

(** [rename_site_skips_or_raises] on a reference that is a push, and on a
    reference outside every basic block. *)
Lemma rename_site_skips_or_raises_witness :
  (get_function_around not_call_view 0x400010 = Some 0x400000
   /\ low_level_il not_call_view 0x400000 0x400010 = Some push_size
   /\ operation push_size <> LLIL_CALL
   /\ for_each [0x400010; 0x400020] (0, None) (rename_site not_call_view)
        newproc_state
      = for_each [0x400020] (0, None) (rename_site not_call_view)
          (logged [Info_found_xref 0x400010; Debug_not_a_call push_size]
                  newproc_state))
  /\ (get_function_around newproc_view 0x400020 = None
      /\ for_each [0x400020; 0x400010] (0, None) (rename_site newproc_view)
           newproc_state
         = (logged [Info_found_xref 0x400020] newproc_state,
            inl AttributeError)).
Proof.
  split.
  - split; [reflexivity|]. split; [reflexivity|]. split; [discriminate|].
    apply (proj1 (rename_site_skips_or_raises not_call_view 0x400010
                    [0x400020] (0, None) newproc_state) 0x400000 push_size);
      [reflexivity | reflexivity | discriminate].
  - split; [reflexivity|].
    apply (proj2 (rename_site_skips_or_raises newproc_view 0x400020
                    [0x400010] (0, None) newproc_state)).
    reflexivity.
Defined.

(** ** How many entries a run visits *)

(** X22: with 4- or 8-byte pointers and a size field of 1 or more, a walk
    that returns has visited exactly as many entries as the size field
    says, less one. *)
Theorem walk_visits_size_minus_one bv st base_addr raw_size :
  ptr_size bv = 4 \/ ptr_size bv = 8 ->
  (locate bv st).2 = inr (Some base_addr) ->
  br_read bv (base_addr + 8) (Z.to_nat (ptr_size bv)) = Some raw_size ->
  1 <= raw_size ->
  (rename_functions bv st).2 = inr tt ->
  exists reached,
    visited (log (rename_functions bv st).1) = (visited (log st) ++ reached)%list
    /\ Z.of_nat (length reached) = raw_size - 1.
Proof.
  intros Hp Hloc Hsize Hone Hret.
  destruct (entry_range_length bv base_addr raw_size Hp Hone)
    as (addrs & Hrange & Hlen).
  rewrite (rename_functions_found _ _ _ _ addrs Hp Hloc Hsize Hrange) in *.
  cbn zeta in *.
  set (st0 := logged _ st) in *.
  destruct (for_each_visited bv base_addr addrs 0 st0 Hp)
    as (reached & _ & Hvis & Hall).
  assert (Hst0 : visited (log st0) = visited (log st))
    by (unfold st0; simpl; rewrite visited_app; apply app_nil_r).
  rewrite Hst0 in Hvis.
  destruct (for_each addrs 0 _ st0) as [st' [e|n]]; simpl in *; [done|].
  exists addrs. rewrite (Hall n eq_refl) in Hvis.
  split; [|done]. rewrite visited_app, Hvis. simpl. apply app_nil_r.
Qed.

(** [walk_visits_size_minus_one] on the one-entry table. *)
Lemma walk_visits_size_minus_one_witness :
  (ptr_size one_entry_view = 4 \/ ptr_size one_entry_view = 8)
  /\ (locate one_entry_view fresh).2 = inr (Some 0x1000)
  /\ br_read one_entry_view (0x1000 + 8) (Z.to_nat (ptr_size one_entry_view))
     = Some 16
  /\ 1 <= 16
  /\ (rename_functions one_entry_view fresh).2 = inr tt
  /\ exists reached,
       visited (log (rename_functions one_entry_view fresh).1)
         = (visited (log fresh) ++ reached)%list
       /\ Z.of_nat (length reached) = 16 - 1.
Proof.
  split; [right; reflexivity|]. split; [reflexivity|]. split; [reflexivity|].
  split; [lia|]. split; [reflexivity|].
  apply (walk_visits_size_minus_one one_entry_view fresh 0x1000 16);
    [right; reflexivity | reflexivity | reflexivity | lia | reflexivity].
Defined.
